(** * generate_combined_graph.js: a shallow embedding and its properties

    The script [scripts/generate_combined_graph.js] fetches the daily
    contribution counts of a list of GitHub accounts, sums them per date and
    renders a calendar heat map as an SVG document.

    Conventions of the embedding.
    - A JavaScript [Date] is its time value: milliseconds since the epoch, a
      [Z].  The [Date] methods the script calls are defined below from the
      abstract operations of ECMA-262 (section "Date Objects") without
      [TimeClip]: they give the time value of the script as long as the
      [Date]s are valid, which the properties assume where they depend on it
      (see [datesValid]).
    - A JavaScript string is a [string] whose characters are its code units;
      only code units below 256 can be written down.
    - A contribution count is a non-negative integer, an [N].  JavaScript
      numbers are doubles; on integers below 2^53 sums, products and
      comparisons are exact, and the one division of the script is modelled on
      the rationals (see [colorLevel] and, for the doubles,
      [colorLevel_rounded]).  The properties that depend on it assume that the
      counts stay below 2^51 (see [countsFit]).
    - The object [aggregated] is used as a dictionary from ISO dates to counts:
      a [gmap string N].  The object also inherits the members of
      [Object.prototype]; the properties of the mapping assume that no date is
      the name of one (see [keysPlain]).
    - The network is an oracle from requests to responses; the process state
      (exit code, written file, console) is threaded explicitly. *)

From Stdlib Require Import ZArith NArith QArith Qround Qpower Lia Permutation Ascii String.
From Stdlib Require Import PrimFloat.
From stdpp Require Import gmap strings list pretty.

Local Open Scope Z_scope.

(** ** ECMA-262 date arithmetic *)

Module JSDate.

Definition msPerDay : Z := 86400000.

Definition Day (t : Z) : Z := t / msPerDay.
Definition TimeWithinDay (t : Z) : Z := t mod msPerDay.

Definition isLeap (y : Z) : bool :=
  if negb (y mod 4 =? 0) then false
  else if negb (y mod 100 =? 0) then true
  else if negb (y mod 400 =? 0) then false
  else true.

Definition DaysInYear (y : Z) : Z := if isLeap y then 366 else 365.

Definition DayFromYear (y : Z) : Z :=
  365 * (y - 1970) + (y - 1969) / 4 - (y - 1901) / 100 + (y - 1601) / 400.

Definition TimeFromYear (y : Z) : Z := msPerDay * DayFromYear y.

(** The largest [y] with [TimeFromYear y <= t]: a first guess from the mean
    length of a Gregorian year, moved by one year where it is off. *)
Definition YearFromTime (t : Z) : Z :=
  let d := Day t in
  let g := 1970 + d * 400 / 146097 in
  if DayFromYear (g + 1) <=? d then g + 1
  else if d <? DayFromYear g then g - 1
  else g.

Definition InLeapYear (t : Z) : bool := isLeap (YearFromTime t).

Definition DayWithinYear (t : Z) : Z := Day t - DayFromYear (YearFromTime t).

(** Day number within the year of the first day of month [m] (0-based). *)
Definition monthStart (leap : bool) (m : Z) : Z :=
  let l := if leap then 1 else 0 in
  match m with
  | 0 => 0
  | 1 => 31
  | 2 => 59 + l
  | 3 => 90 + l
  | 4 => 120 + l
  | 5 => 151 + l
  | 6 => 181 + l
  | 7 => 212 + l
  | 8 => 243 + l
  | 9 => 273 + l
  | 10 => 304 + l
  | _ => 334 + l
  end.

Definition MonthFromTime (t : Z) : Z :=
  let d := DayWithinYear t in
  let leap := InLeapYear t in
  if d <? monthStart leap 1 then 0
  else if d <? monthStart leap 2 then 1
  else if d <? monthStart leap 3 then 2
  else if d <? monthStart leap 4 then 3
  else if d <? monthStart leap 5 then 4
  else if d <? monthStart leap 6 then 5
  else if d <? monthStart leap 7 then 6
  else if d <? monthStart leap 8 then 7
  else if d <? monthStart leap 9 then 8
  else if d <? monthStart leap 10 then 9
  else if d <? monthStart leap 11 then 10
  else 11.

Definition DateFromTime (t : Z) : Z :=
  DayWithinYear t - monthStart (InLeapYear t) (MonthFromTime t) + 1.

Definition WeekDay (t : Z) : Z := (Day t + 4) mod 7.

Definition HourFromTime (t : Z) : Z := (t / 3600000) mod 24.
Definition MinFromTime (t : Z) : Z := (t / 60000) mod 60.
Definition SecFromTime (t : Z) : Z := (t / 1000) mod 60.
Definition msFromTime (t : Z) : Z := t mod 1000.

Definition MakeTime (h m s ms : Z) : Z := h * 3600000 + m * 60000 + s * 1000 + ms.

Definition MakeDay (year month date : Z) : Z :=
  let ym := year + month / 12 in
  let mn := month mod 12 in
  DayFromYear ym + monthStart (isLeap ym) mn + date - 1.

Definition MakeDate (day time : Z) : Z := day * msPerDay + time.

(** The methods of [Date.prototype] used by the script. *)
Definition getUTCDate (t : Z) : Z := DateFromTime t.
Definition getUTCDay (t : Z) : Z := WeekDay t.

Definition setUTCHours (t h m s ms : Z) : Z :=
  MakeDate (Day t) (MakeTime h m s ms).

(** [setUTCDate] before its [TimeClip]: the time value that the script gets
    when the result is a valid [Date] (see [validTime]); beyond, the script
    gets NaN. *)
Definition setUTCDate (t dt : Z) : Z :=
  MakeDate (MakeDay (YearFromTime t) (MonthFromTime t) dt) (TimeWithinDay t).

(** Decimal digits of [n], left-padded with zeros to [w] characters. *)
Definition pad (w : nat) (n : Z) : string :=
  let s := pretty (Z.to_N n) in
  String.concat EmptyString (replicate (w - String.length s) "0"%string) +:+ s.

Definition isoYear (y : Z) : string :=
  if (0 <=? y) && (y <=? 9999) then pad 4 y
  else (if y <? 0 then "-" else "+") +:+ pad 6 (Z.abs y).

(** [toISOString] of a valid [Date]; on an invalid one the script throws a
    [RangeError]. *)
Definition toISOString (t : Z) : string :=
  isoYear (YearFromTime t) +:+ "-" +:+ pad 2 (MonthFromTime t + 1) +:+ "-"
    +:+ pad 2 (DateFromTime t) +:+ "T" +:+ pad 2 (HourFromTime t) +:+ ":"
    +:+ pad 2 (MinFromTime t) +:+ ":" +:+ pad 2 (SecFromTime t) +:+ "."
    +:+ pad 3 (msFromTime t) +:+ "Z".

End JSDate.


(** ** JavaScript strings and numbers *)

Module JS.

(** [WhiteSpace] and [LineTerminator] code units below 256: TAB, LF, VT, FF,
    CR, SP and NBSP. *)
Definition isWhiteSpace (c : ascii) : bool :=
  let n := nat_of_ascii c in
  ((9 <=? n) && (n <=? 13) || (n =? 32) || (n =? 160))%nat.

(** [s.split(sep)] for a one-character separator. *)
Fixpoint split (sep : ascii) (s : string) : list string :=
  match s with
  | EmptyString => [EmptyString]
  | String c s' =>
      if Ascii.eqb c sep then EmptyString :: split sep s'
      else match split sep s' with
           | h :: t => String c h :: t
           | [] => [String c EmptyString]
           end
  end.

Fixpoint trimStart (s : string) : string :=
  match s with
  | EmptyString => EmptyString
  | String c s' => if isWhiteSpace c then trimStart s' else s
  end.

Fixpoint trimEnd (s : string) : string :=
  match s with
  | EmptyString => EmptyString
  | String c s' =>
      match trimEnd s' with
      | EmptyString => if isWhiteSpace c then EmptyString else String c EmptyString
      | r => String c r
      end
  end.

Definition trim (s : string) : string := trimEnd (trimStart s).

(** [Boolean(s)]: a string is truthy when it is not empty. *)
Definition truthy (s : string) : bool :=
  match s with EmptyString => false | _ => true end.

(** [a || b] where [a] is a string or [undefined]. *)
Definition orElse (a : option string) (b : option string) : option string :=
  match a with
  | Some s => if truthy s then Some s else b
  | None => b
  end.

(** [s.slice(0, n)] *)
Definition slice0 (n : nat) (s : string) : string := String.substring 0 n s.

(** [Math.ceil] and [Math.round] on the rationals. *)
Definition ceil (q : Q) : Z := Qceiling q.
Definition round (q : Q) : Z := Qfloor (q + (1 # 2)).

(** A number in a template literal; integers print in decimal. *)
Definition num (z : Z) : string := pretty z.

(** A line feed, and a text between double quotes. *)
Definition nl : string := String (ascii_of_nat 10) EmptyString.
Definition quoted (s : string) : string :=
  String (ascii_of_nat 34) s +:+ String (ascii_of_nat 34) EmptyString.

End JS.

(** ** Configuration (lines 5-17) *)

(** The environment of the process.  A numeric variable holds the integer its
    text denotes; [None] is an unset or empty variable. *)
Record env := {
  GH_PAT : option string;
  GH_TOKEN : option string;
  GITHUB_TOKEN : option string;
  USERNAMES_env : option string;
  DAYS_env : option Z;
  CELL_SIZE_env : option Z;
  GAP_env : option Z
}.

Definition TOKEN (e : env) : option string :=
  JS.orElse (GH_PAT e) (JS.orElse (GH_TOKEN e) (JS.orElse (GITHUB_TOKEN e) None)).

Definition default_usernames : string := "migaradenuwan,MigaraDenuwan-Tokyo".

Definition USERNAMES (e : env) : list string :=
  let s := default (default_usernames) (JS.orElse (USERNAMES_env e) (Some default_usernames)) in
  List.filter JS.truthy (List.map JS.trim (JS.split "," s)).

Definition DAYS (e : env) : Z := default 365 (DAYS_env e).

Section Window.
Variable e : env.
(** [new Date()]: the clock, in milliseconds since the epoch. *)
Variable now : Z.

Definition today : Z := JSDate.setUTCHours now 0 0 0 0.
Definition fromDate : Z :=
  JSDate.setUTCDate today (JSDate.getUTCDate today - (DAYS e - 1)).
Definition toDate : Z := today.
End Window.

(** ** Fetching one account (lines 36-55) *)

Record request := {
  req_login : string;
  req_from : string;
  req_to : string;
  req_authorization : option string
}.

Record contributionDay := {
  cd_date : option string;
  contributionCount : N
}.

Record week := { contributionDays : option (list contributionDay) }.

(** What [fetch] and [resp.json()] deliver.  [errors] is the JSON text of a
    truthy [errors] member.  [calendar] is [None] when a member on the path
    [data.user.contributionsCollection.contributionCalendar] is missing or
    null, and [Some None] when [weeks] is. *)
Inductive response :=
| Rejected (msg : string)
| Json (errors : option string) (calendar : option (option (list week))).

Inductive fetchError :=
| GraphQLError (login errors : string)
| TypeError
| FetchRejected (msg : string).

Record day := { date : string; count : N }.

(** The inner loop of [doFetch]: [None] is a thrown [TypeError]. *)
Fixpoint pushDays (ds : list contributionDay) (days : list day) : option (list day) :=
  match ds with
  | [] => Some days
  | d :: ds' =>
      match cd_date d with
      | None => None
      | Some s =>
          pushDays ds' (days ++ [{| date := JS.slice0 10 s; count := contributionCount d |}])
      end
  end.

Fixpoint pushWeeks (ws : list week) (days : list day) : option (list day) :=
  match ws with
  | [] => Some days
  | w :: ws' =>
      match contributionDays w with
      | None => None
      | Some ds =>
          match pushDays ds days with
          | None => None
          | Some days' => pushWeeks ws' days'
          end
      end
  end.

Section Fetch.
Variable e : env.
Variable now : Z.
Variable remote : request -> response.

Definition mkRequest (login : string) : request :=
  {| req_login := login;
     req_from := JSDate.toISOString (fromDate e now);
     req_to := JSDate.toISOString (toDate now);
     req_authorization :=
       match TOKEN e with
       | Some t => Some ("bearer " +:+ t)
       | None => None
       end |}.

Definition doFetch (login : string) : fetchError + list day :=
  match remote (mkRequest login) with
  | Rejected msg => inl (FetchRejected msg)
  | Json (Some errs) _ => inl (GraphQLError login errs)
  | Json None None => inl TypeError
  | Json None (Some ws) =>
      match pushWeeks (default [] ws) [] with
      | None => inl TypeError
      | Some days => inr days
      end
  end.
End Fetch.

(** ** Aggregation (lines 69-81) *)

(** [aggregated[k] || 0] *)
Definition getCount (aggregated : gmap string N) (k : string) : N :=
  default 0%N (aggregated !! k).

(** [aggregated[d.date] = (aggregated[d.date] || 0) + d.count], for a date
    that is no name of [Object.prototype] and a sum within 2^53 (see
    [keysPlain] and [countsFit]). *)
Definition addDay (aggregated : gmap string N) (d : day) : gmap string N :=
  <[date d := (getCount aggregated (date d) + count d)%N]> aggregated.

Definition addDays (aggregated : gmap string N) (days : list day) : gmap string N :=
  fold_left addDay days aggregated.

Inductive event :=
| WarnNoToken
| ErrNeedsNode18
| LogFetching (user : string)
| ErrFailed (user : string) (err : fetchError)
| LogWritten (days : nat) (weeks : Z).

(** The state the fetch loop works on: the accumulator, [process.exitCode]
    and what went to the console, oldest first. *)
Record proc := {
  aggregated : gmap string N;
  exitCode : Z;
  console : list event
}.

Definition fetchStep (fetch : string -> fetchError + list day) (p : proc) (user : string) : proc :=
  let c := console p ++ [LogFetching user] in
  match fetch user with
  | inr days =>
      {| aggregated := addDays (aggregated p) days; exitCode := exitCode p; console := c |}
  | inl err =>
      {| aggregated := aggregated p; exitCode := 2; console := c ++ [ErrFailed user err] |}
  end.

Definition fetchAll (fetch : string -> fetchError + list day) (users : list string) (p : proc) : proc :=
  fold_left (fetchStep fetch) users p.

(** ** The grid (lines 83-101) *)

Record entry := { e_date : Z; iso : string; e_count : N }.

Definition oneDay : Z := 24 * 60 * 60 * 1000.

Section Grid.
Variable fromDate toDate : Z.
Variable aggregated : gmap string N.

Definition start : Z :=
  JSDate.setUTCDate fromDate (JSDate.getUTCDate fromDate - JSDate.getUTCDay fromDate).

Definition end_ : Z :=
  JSDate.setUTCDate toDate (JSDate.getUTCDate toDate + (6 - JSDate.getUTCDay toDate)).

Definition totalDays : Z :=
  JS.round (inject_Z (end_ - start) / inject_Z oneDay) + 1.

Definition weeks : Z := JS.ceil (inject_Z totalDays / 7).

Definition mkEntry (i : Z) : entry :=
  let d := start + i * oneDay in
  let iso := JS.slice0 10 (JSDate.toISOString d) in
  {| e_date := d; iso := iso; e_count := getCount aggregated iso |}.

Definition dates : list entry := mkEntry <$> seqZ 0 totalDays.
End Grid.

(** ** Colours (lines 103-110) *)

Definition colors : list string :=
  ["#ebedf0"; "#9be9a8"; "#40c463"; "#30a14e"; "#216e39"]%string.

(** [Math.max(0, ...counts)] *)
Definition maxCount (ds : list entry) : N :=
  fold_right N.max 0%N (e_count <$> ds).

(** [Math.ceil((cnt / max) * (colors.length - 1))], the quotient taken in the
    rationals.  The script computes it in doubles; for [0 < cnt <= max] below
    2^51 that gives the same integer (lemma [colorLevel_rounded_eq]): a
    quotient that is not a multiple of 1/4 is at least [1 / (4 * max)] above
    the next lower one, so a double lies between them, and multiples of 1/4 are
    exact.  Above 2^52 the two can differ (example [colorLevel_double_differs]).
    [colorLevel_double] below is the computation in the doubles of the
    kernel. *)
Definition colorLevel (max cnt : N) : Z :=
  JS.ceil ((inject_Z (Z.of_N cnt) / inject_Z (Z.of_N max))
           * inject_Z (Z.of_nat (List.length colors) - 1)).

(** The index into [colors] that [colorFor] reads. *)
Definition bucket (max cnt : N) : Z :=
  if (cnt =? 0)%N then 0
  else if (max =? 0)%N then 0
  else Z.min (colorLevel max cnt) (Z.of_nat (List.length colors) - 1).

(** [colors[i]]; [undefined] prints as such in a template literal. *)
Definition colorAt (i : Z) : string :=
  if i <? 0 then "undefined"%string else nth (Z.to_nat i) colors "undefined"%string.

Definition colorFor (max cnt : N) : string := colorAt (bucket max cnt).

(** ** Rendering (lines 112-139) *)

Definition leftPad : Z := 20.
Definition topPad : Z := 12.

Record rect := {
  weekday : Z;
  weekIndex : Z;
  x : Z;
  y : Z;
  fill : string
}.

Section Render.
Variable cell gap : Z.
Variable max : N.

Definition mkRect (i : nat) (en : entry) : rect :=
  let weekday := JSDate.getUTCDay (e_date en) in
  let weekIndex := Z.of_nat i / 7 in
  {| weekday := weekday;
     weekIndex := weekIndex;
     x := leftPad + weekIndex * (cell + gap);
     y := topPad + weekday * (cell + gap);
     fill := colorFor max (e_count en) |}.

Definition rectText (r : rect) (en : entry) : string :=
  "<rect x=" +:+ JS.quoted (JS.num (x r)) +:+ " y=" +:+ JS.quoted (JS.num (y r))
    +:+ " width=" +:+ JS.quoted (JS.num cell) +:+ " height=" +:+ JS.quoted (JS.num cell)
    +:+ " rx=" +:+ JS.quoted "3" +:+ " ry=" +:+ JS.quoted "3"
    +:+ " fill=" +:+ JS.quoted (fill r) +:+ ">"
    +:+ "<title>" +:+ iso en +:+ ": " +:+ pretty (e_count en) +:+ " contribution"
    +:+ (if (e_count en =? 1)%N then EmptyString else "s") +:+ "</title>"
    +:+ "</rect>" +:+ JS.nl.

Definition svgHeader (weeks : Z) : string :=
  let svgW := weeks * (cell + gap) + leftPad + 10 in
  let svgH := 7 * (cell + gap) + topPad + 10 in
  "<?xml version=" +:+ JS.quoted "1.0" +:+ " encoding=" +:+ JS.quoted "UTF-8" +:+ "?>" +:+ JS.nl
    +:+ "<svg xmlns=" +:+ JS.quoted "http://www.w3.org/2000/svg"
    +:+ " width=" +:+ JS.quoted (JS.num svgW) +:+ " height=" +:+ JS.quoted (JS.num svgH)
    +:+ " viewBox=" +:+ JS.quoted ("0 0 " +:+ JS.num svgW +:+ " " +:+ JS.num svgH) +:+ ">" +:+ JS.nl
    +:+ "<rect width=" +:+ JS.quoted "100%" +:+ " height=" +:+ JS.quoted "100%"
    +:+ " fill=" +:+ JS.quoted "transparent" +:+ "/>" +:+ JS.nl.

Definition rects (ds : list entry) : list rect := imap mkRect ds.

Definition svgText (weeks : Z) (ds : list entry) : string :=
  svgHeader weeks
    +:+ String.concat EmptyString (zip_with rectText (rects ds) ds)
    +:+ "</svg>" +:+ JS.nl.
End Render.

(** ** The program (lines 62-139) *)

(** What the run depends on besides the environment and the clock: whether the
    global [fetch] exists, what the remote answers, and whether the output
    file can be written. *)
Record world := {
  hasFetch : bool;
  remote : request -> response;
  writable : bool
}.

(** What a run leaves behind: the exit status of the process, the content of
    [combined-graph.svg] when it was written, and the console. *)
Record outcome := {
  status : Z;
  file : option string;
  output : list event
}.

Definition CELL_SIZE (e : env) : Z := default 12 (CELL_SIZE_env e).
Definition GAP (e : env) : Z := default 3 (GAP_env e).

Section Main.
Variable e : env.
Variable now : Z.
Variable w : world.

Definition warnings : list event :=
  match TOKEN e with Some _ => [] | None => [WarnNoToken] end.

(** The state after the fetch loop. *)
Definition fetched : proc :=
  fetchAll (doFetch e now (remote w)) (USERNAMES e)
    {| aggregated := ∅; exitCode := 0; console := warnings |}.

Definition grid : list entry :=
  dates (fromDate e now) (toDate now) (aggregated fetched).

Definition gridWeeks : Z := weeks (fromDate e now) (toDate now).

Definition svg : string :=
  svgText (CELL_SIZE e) (GAP e) (maxCount grid) gridWeeks grid.

(** [process.exit(1)] when [fetch] is missing.  An exception of
    [fs.writeFileSync] rejects the promise of the async function, which
    nothing handles: Node ends the process with status 1.  The spread of
    line 103 does the same on a grid of more cells than the engine takes as
    arguments; [main] is the run on a grid that fits (see [gridFits]). *)
Definition main : outcome :=
  if negb (hasFetch w) then
    {| status := 1; file := None; output := warnings ++ [ErrNeedsNode18] |}
  else if writable w then
    {| status := exitCode fetched;
       file := Some svg;
       output := console fetched ++ [LogWritten (List.length grid) gridWeeks] |}
  else
    {| status := 1; file := None; output := console fetched |}.
End Main.

(** ** Sample inputs *)

Module Sample.

Definition noEnv : env :=
  {| GH_PAT := None; GH_TOKEN := None; GITHUB_TOKEN := None;
     USERNAMES_env := None; DAYS_env := None; CELL_SIZE_env := None; GAP_env := None |}.

(** Wednesday 2024-01-03, 00:00:00.123 UTC. *)
Definition wednesday : Z := 1704240000123.

Definition days (l : list (string * N)) : list week :=
  [{| contributionDays :=
        Some ((fun p => {| cd_date := Some (fst p); contributionCount := snd p |}) <$> l) |}].

(** Account A and account B of the scenario; every other login fails. *)
Definition remoteAB (r : request) : response :=
  if String.eqb (req_login r) "A" then
    Json None (Some (Some (days [("2024-01-01T00:00:00Z", 3)]))%N)
  else if String.eqb (req_login r) "B" then
    Json None (Some (Some (days [("2024-01-01", 2); ("2024-01-02", 1)]))%N)
  else Json (Some "[{message:NOT_FOUND}]") None.

(** As [remoteAB] for A and B; the network is down for every other login. *)
Definition remoteOnlyAB (r : request) : response :=
  if String.eqb (req_login r) "A" || String.eqb (req_login r) "B" then remoteAB r
  else Rejected "fetch failed".

Definition envOf (users : string) (days : Z) : env :=
  {| GH_PAT := None; GH_TOKEN := Some "t0ken"; GITHUB_TOKEN := None;
     USERNAMES_env := Some users; DAYS_env := Some days;
     CELL_SIZE_env := None; GAP_env := None |}.

Definition node18 (remote : request -> response) : world :=
  {| hasFetch := true; remote := remote; writable := true |}.

End Sample.

(** ** Definitions used to state the properties *)

(** The colour bucket in the words of the specification: [levels] severity
    levels, bucket 0 for a zero count or a zero maximum, and otherwise
    [ceil(count / max * (levels - 1))] clamped to [1 .. levels - 1]. *)
Definition levels : Z := 5.

Definition clamp (lo hi v : Z) : Z := Z.max lo (Z.min v hi).

Definition bucket_spec (max cnt : N) : Z :=
  if ((cnt =? 0) || (max =? 0))%N then 0
  else clamp 1 (levels - 1)
         (Qceiling (inject_Z (Z.of_N cnt) / inject_Z (Z.of_N max) * inject_Z (levels - 1))).

(** The level as the script computes it, in binary64: the count and the
    maximum as doubles, their quotient and its product by 4 rounded to nearest,
    and [Math.ceil] of a double, read off up to 5 (the script takes the minimum
    with 4). *)
Fixpoint doubleOfPos (p : positive) : float :=
  match p with
  | xH => 1%float
  | xO q => (2 * doubleOfPos q)%float
  | xI q => (2 * doubleOfPos q + 1)%float
  end.

Definition doubleOfN (n : N) : float :=
  match n with
  | N0 => 0%float
  | Npos p => doubleOfPos p
  end.

Definition ceilUpTo5 (q : float) : Z :=
  if (q <=? 0)%float then 0
  else if (q <=? 1)%float then 1
  else if (q <=? 2)%float then 2
  else if (q <=? 3)%float then 3
  else if (q <=? 4)%float then 4
  else 5.

Definition colorLevel_double (max cnt : N) : Z :=
  ceilUpTo5 (doubleOfN cnt / doubleOfN max * 4)%float.

(** [colorLevel_double] and [colorLevel] pick the same colour for every
    [1 <= cnt <= max <= bound]. *)
Definition doubleAgrees (bound : nat) : bool :=
  forallb (fun m =>
    forallb (fun c =>
      Z.min (colorLevel_double (N.of_nat (S m)) (N.of_nat (S c))) 4
        =? Z.min (colorLevel (N.of_nat (S m)) (N.of_nat (S c))) 4)
      (seq 0 (S m)))
    (seq 0 bound).

(** The sum of the counts that the day records [days] report for date [k]. *)
Fixpoint sumFor (k : string) (days : list day) : N :=
  match days with
  | [] => 0
  | d :: ds => ((if String.eqb (date d) k then count d else 0) + sumFor k ds)%N
  end.

(** The day records of the accounts whose fetch returned, in fetch order. *)
Definition returned (fetch : string -> fetchError + list day) (users : list string)
  : list (list day) :=
  omap (fun u => match fetch u with inr ds => Some ds | inl _ => None end) users.

Definition failed (r : fetchError + list day) : bool :=
  match r with inl _ => true | inr _ => false end.

(** The accounts for which a fetch was started, read off the console. *)
Definition fetchesOf (c : list event) : list string :=
  omap (fun ev => match ev with LogFetching u => Some u | _ => None end) c.

(** What one turn of the fetch loop does to the accumulator. *)
Definition absorb (fetch : string -> fetchError + list day)
    (m : gmap string N) (u : string) : gmap string N :=
  match fetch u with inr days => addDays m days | inl _ => m end.




(** ** Definitions for the further properties *)

(** One day of the response as [doFetch] records it; [None] when the [date]
    member is missing. *)
Definition dayOf (d : contributionDay) : option day :=
  (fun s => {| date := JS.slice0 10 s; count := contributionCount d |}) <$> cd_date d.

(** The records of one week; [None] when [contributionDays] or a date is
    missing. *)
Definition weekDays (w : week) : option (list day) :=
  contributionDays w ≫= mapM dayOf.

(** The sum of all counts of a list of day records, and of a mapping. *)
Definition sumAll (days : list day) : N :=
  fold_right (fun d acc => (count d + acc)%N) 0%N days.

Definition total (m : gmap string N) : N :=
  map_fold (fun _ v acc => (v + acc)%N) 0%N m.

(** The failures reported on the console, oldest first. *)
Definition failuresOf (c : list event) : list (string * fetchError) :=
  omap (fun ev => match ev with ErrFailed u err => Some (u, err) | _ => None end) c.

(** The failures of the accounts [users], in fetch order. *)
Definition failuresIn (fetch : string -> fetchError + list day) (users : list string)
  : list (string * fetchError) :=
  omap (fun u => match fetch u with inl err => Some (u, err) | inr _ => None end) users.

(** The size of the canvas (lines 116-117). *)
Definition svgW (cell gap weeks : Z) : Z := weeks * (cell + gap) + leftPad + 10.
Definition svgH (cell gap : Z) : Z := 7 * (cell + gap) + topPad + 10.

(** Predicates on the characters of a text. *)
Fixpoint allWhite (s : string) : bool :=
  match s with
  | EmptyString => true
  | String c r => JS.isWhiteSpace c && allWhite r
  end.

Fixpoint hasChar (c : ascii) (s : string) : bool :=
  match s with
  | EmptyString => false
  | String a r => Ascii.eqb a c || hasChar c r
  end.

Fixpoint countChar (c : ascii) (s : string) : nat :=
  match s with
  | EmptyString => 0
  | String a r => (if Ascii.eqb a c then 1 else 0) + countChar c r
  end.

(** A variable of the environment that is unset or empty. *)
Definition unsetOrEmpty (o : option string) : Prop :=
  o = None \/ o = Some EmptyString.

(** ** [isoToDate] (lines 57-60) *)

Definition digitOf (c : ascii) : option Z :=
  let n := nat_of_ascii c in
  if ((48 <=? n) && (n <=? 57))%nat then Some (Z.of_nat n - 48) else None.

(** Reads exactly [n] decimal digits off the front of [s]. *)
Fixpoint takeDigits (n : nat) (s : string) (acc : Z) : option (Z * string) :=
  match n with
  | O => Some (acc, s)
  | S n' =>
      match s with
      | EmptyString => None
      | String c r =>
          match digitOf c with
          | Some d => takeDigits n' r (10 * acc + d)
          | None => None
          end
      end
  end.

(** What follows the year in a date of the ECMA-262 date-time format:
    nothing, [-MM] or [-MM-DD]. *)
Definition parseMonthDay (y : Z) (rest : string) : option (Z * Z * Z) :=
  match rest with
  | EmptyString => Some (y, 1, 1)
  | String c r =>
      if Ascii.eqb c "-" then
        match takeDigits 2 r 0 with
        | Some (m, EmptyString) => Some (y, m, 1)
        | Some (m, String c' r') =>
            if Ascii.eqb c' "-" then
              match takeDigits 2 r' 0 with
              | Some (d, EmptyString) => Some (y, m, d)
              | _ => None
              end
            else None
        | None => None
        end
      else None
  end.

(** A date of the format: a year of four digits, or of six digits with a
    sign ([-000000] is not a year). *)
Definition parseDate (s : string) : option (Z * Z * Z) :=
  match s with
  | EmptyString => None
  | String c r =>
      if Ascii.eqb c "+" then
        match takeDigits 6 r 0 with
        | Some (y, rest) => parseMonthDay y rest
        | None => None
        end
      else if Ascii.eqb c "-" then
        match takeDigits 6 r 0 with
        | Some (y, rest) => if y =? 0 then None else parseMonthDay (- y) rest
        | None => None
        end
      else
        match takeDigits 4 s 0 with
        | Some (y, rest) => parseMonthDay y rest
        | None => None
        end
  end.

(** [new Date(iso + 'T00:00:00Z')]; the script defines [isoToDate] and does
    not call it.  The text ends in the time [T00:00:00Z], so it is in the
    date-time format of ECMA-262 exactly when [iso] is a date of that format,
    with a month from 01 to 12 and a day from 01 to 31; the time value is then
    the UTC midnight that [MakeDay] gives.  [None] stands for every other text:
    the script gets an invalid [Date] or a date by the engine's own rules,
    which are not modelled. *)
Definition isoToDate (iso : string) : option Z :=
  match parseDate iso with
  | Some (y, m, d) =>
      if (1 <=? m) && (m <=? 12) && (1 <=? d) && (d <=? 31)
      then Some (JSDate.MakeDate (JSDate.MakeDay y (m - 1) d) (JSDate.MakeTime 0 0 0 0))
      else None
  | None => None
  end.

(** [pad w n] is [w] characters that read back as [n]. *)
Definition padReadsBack (w : nat) (n : Z) : bool :=
  (String.length (JSDate.pad w n) =? w)%nat
  && match takeDigits w (JSDate.pad w n) 0 with
     | Some (v, EmptyString) => v =? n
     | _ => false
     end.


(** ** The limits of the engine *)

(** A [Date] is valid within 8.64e15 ms of the epoch; [TimeClip], which every
    method that sets a [Date] ends with, gives NaN beyond, and [toISOString]
    throws a [RangeError] on such a [Date].  The operations of [JSDate] leave
    [TimeClip] out: they give the time value of the script where the [Date] is
    valid, which is what the properties below assume. *)
Definition maxTime : Z := 8640000000000000.

Definition validTime (t : Z) : bool := (- maxTime <=? t) && (t <=? maxTime).

Definition TimeClip (t : Z) : option Z := if validTime t then Some t else None.

(** The clock and the three [Date]s that the script computes by [setUTCDate]
    are valid; the dates of the cells lie between the last two. *)
Definition datesValid (e : env) (now : Z) : bool :=
  validTime now && validTime (fromDate e now)
  && validTime (start (fromDate e now)) && validTime (end_ (toDate now)).

(** The spread [Math.max(0, ...counts)] of line 103 passes one argument per
    cell and throws a [RangeError] when the engine cannot take them (from about
    125,000 cells with the default stack of Node); [maxCells] is a number of
    cells that it takes. *)
Definition maxCells : Z := 65535.

Definition gridFits (e : env) (now : Z) : bool :=
  totalDays (fromDate e now) (toDate now) <=? maxCells.

(** The names that the object [aggregated] inherits from [Object.prototype]:
    read under such a name it gives a function or the prototype, not a count,
    and a number stored under [__proto__] is dropped.  The mapping of the model
    is the object of the script as long as no date is one of them. *)
Definition Object_prototype_names : list string :=
  ["constructor"; "__defineGetter__"; "__defineSetter__"; "hasOwnProperty";
   "__lookupGetter__"; "__lookupSetter__"; "isPrototypeOf"; "propertyIsEnumerable";
   "toString"; "valueOf"; "__proto__"; "toLocaleString"]%string.

Definition plainKey (k : string) : bool :=
  negb (existsb (String.eqb k) Object_prototype_names).

Definition keysPlain (days : list day) : bool :=
  forallb (fun d => plainKey (date d)) days.

(** The counts of the script are doubles.  As long as all counts together
    stay below 2^51, every sum of the script is exact (sums of integers are,
    within 2^53) and the colour level computed in doubles is the level
    computed in the rationals (see [colorLevel_rounded]). *)
Definition maxTotal : N := 2251799813685248.

Definition countsFit (days : list day) : bool := (sumAll days <? maxTotal)%N.

(** A run within these limits. *)
Definition withinLimits (e : env) (now : Z) (w : world) : bool :=
  datesValid e now && gridFits e now
  && countsFit (concat (returned (doFetch e now (remote w)) (USERNAMES e)))
  && keysPlain (concat (returned (doFetch e now (remote w)) (USERNAMES e))).

(** ** The colour level in doubles *)

(** The numbers of binary64, and a rounding to them: monotone, and exact on
    the numbers of the format.  Rounding to nearest, which the division and the
    product of the script use, is one. *)
Definition isBinary64 (x : Q) : Prop :=
  exists m e : Z,
    Z.abs m < 2 ^ 53 /\ -1074 <= e <= 971 /\ (x == inject_Z m * 2 ^ e)%Q.

Definition roundsToBinary64 (rnd : Q -> Q) : Prop :=
  (forall x y : Q, (x <= y)%Q -> (rnd x <= rnd y)%Q)
  /\ (forall x : Q, isBinary64 x -> (rnd x == x)%Q).

(** [Math.ceil((cnt / max) * (colors.length - 1))] with the quotient and the
    product rounded, and the index that [colorFor] reads with it. *)
Definition colorLevel_rounded (rnd : Q -> Q) (max cnt : N) : Z :=
  JS.ceil (rnd (rnd (inject_Z (Z.of_N cnt) / inject_Z (Z.of_N max))
                * inject_Z (Z.of_nat (List.length colors) - 1))%Q).

Definition bucket_rounded (rnd : Q -> Q) (max cnt : N) : Z :=
  if (cnt =? 0)%N then 0
  else if (max =? 0)%N then 0
  else Z.min (colorLevel_rounded rnd max cnt) (Z.of_nat (List.length colors) - 1).

(** * Properties *)

(** ** Date arithmetic *)

Example iso_epoch : JSDate.toISOString 0 = "1970-01-01T00:00:00.000Z"%string.
Proof. vm_compute. reflexivity. Qed.

Example iso_2024 : JSDate.toISOString 1704067200000 = "2024-01-01T00:00:00.000Z"%string.
Proof. vm_compute. reflexivity. Qed.

Example iso_leap_day : JSDate.toISOString 1709251199999 = "2024-02-29T23:59:59.999Z"%string.
Proof. vm_compute. reflexivity. Qed.

Example iso_before_epoch : JSDate.toISOString (-1) = "1969-12-31T23:59:59.999Z"%string.
Proof. vm_compute. reflexivity. Qed.

Example wednesday_is_wednesday :
  JSDate.getUTCDay Sample.wednesday = 3
  /\ JS.slice0 10 (JSDate.toISOString Sample.wednesday) = "2024-01-03"%string.
Proof. vm_compute. auto. Qed.

Section DateFacts.
Import JSDate.

Lemma MonthFromTime_range t : 0 <= MonthFromTime t <= 11.
Proof. unfold MonthFromTime. repeat case_match; lia. Qed.

Lemma Day_shift t k : Day (t + k * msPerDay) = Day t + k.
Proof. unfold Day, msPerDay. rewrite Z.div_add by lia. reflexivity. Qed.

Lemma TimeWithinDay_shift t k : TimeWithinDay (t + k * msPerDay) = TimeWithinDay t.
Proof. unfold TimeWithinDay, msPerDay. rewrite Z.mod_add by lia. reflexivity. Qed.

Lemma setUTCDate_getUTCDate t k :
  setUTCDate t (getUTCDate t + k) = t + k * msPerDay.
Proof.
  unfold setUTCDate, getUTCDate, DateFromTime, MakeDay, MakeDate.
  pose proof (MonthFromTime_range t) as Hm.
  rewrite Z.div_small, Z.mod_small, Z.add_0_r by lia.
  fold (InLeapYear t).
  generalize (monthStart (InLeapYear t) (MonthFromTime t)); intros ms.
  unfold DayWithinYear, TimeWithinDay, Day.
  pose proof (Z.div_mod t msPerDay). unfold msPerDay in *. lia.
Qed.

Lemma setUTCHours_midnight t : setUTCHours t 0 0 0 0 = Day t * msPerDay.
Proof. unfold setUTCHours, MakeDate, MakeTime. lia. Qed.

Lemma WeekDay_range t : 0 <= WeekDay t <= 6.
Proof. unfold WeekDay. pose proof (Z.mod_pos_bound (Day t + 4) 7). lia. Qed.

Lemma WeekDay_shift t k : WeekDay (t + k * msPerDay) = (WeekDay t + k) mod 7.
Proof.
  unfold WeekDay. rewrite Day_shift.
  rewrite Zplus_mod_idemp_l. f_equal. lia.
Qed.

Lemma getUTCDay_range t : 0 <= getUTCDay t <= 6.
Proof. apply WeekDay_range. Qed.

Lemma getUTCDay_shift t k : getUTCDay (t + k * msPerDay) = (getUTCDay t + k) mod 7.
Proof. apply WeekDay_shift. Qed.
End DateFacts.

Section CalendarFacts.
Import JSDate.

(** [YearFromTime] meets its definition in ECMA-262: the year whose first
    day is the last one not after [t]. *)
Lemma YearFromTime_days t :
  DayFromYear (YearFromTime t) <= Day t < DayFromYear (YearFromTime t + 1).
Proof.
  unfold YearFromTime. generalize (Day t); intros d. cbv zeta.
  destruct (Z.leb_spec (DayFromYear (1970 + d * 400 / 146097 + 1)) d) as [H1|H1].
  - split; [exact H1|]. unfold DayFromYear in *. Z.div_mod_to_equations. lia.
  - destruct (Z.ltb_spec d (DayFromYear (1970 + d * 400 / 146097))) as [H2|H2].
    + split; [unfold DayFromYear in *; Z.div_mod_to_equations; lia|].
      replace (1970 + d * 400 / 146097 - 1 + 1) with (1970 + d * 400 / 146097) by lia.
      exact H2.
    + split; [exact H2|exact H1].
Qed.

Lemma YearFromTime_spec t :
  TimeFromYear (YearFromTime t) <= t < TimeFromYear (YearFromTime t + 1).
Proof.
  pose proof (YearFromTime_days t) as H.
  unfold TimeFromYear, Day, msPerDay in *. Z.div_mod_to_equations. lia.
Qed.

Lemma DayFromYear_succ y : DayFromYear (y + 1) = DayFromYear y + DaysInYear y.
Proof.
  unfold DaysInYear, isLeap, DayFromYear.
  destruct (Z.eqb_spec (y mod 4) 0), (Z.eqb_spec (y mod 100) 0),
    (Z.eqb_spec (y mod 400) 0); cbn [negb]; Z.div_mod_to_equations; lia.
Qed.

Lemma DayWithinYear_range t :
  0 <= DayWithinYear t < DaysInYear (YearFromTime t).
Proof.
  pose proof (YearFromTime_days t) as H. rewrite DayFromYear_succ in H.
  unfold DayWithinYear. lia.
Qed.

Lemma DateFromTime_range t : 1 <= DateFromTime t <= 31.
Proof.
  pose proof (DayWithinYear_range t) as H.
  unfold DateFromTime, MonthFromTime, DaysInYear, InLeapYear in *.
  destruct (isLeap (YearFromTime t)); cbn [monthStart] in *;
    repeat case_match; cbn [monthStart]; lia.
Qed.
End CalendarFacts.

(** ** Rounding *)

Lemma round_days n : JS.round (inject_Z (n * oneDay) / inject_Z oneDay) = n.
Proof.
  unfold JS.round. change oneDay with 86400000.
  change (/ inject_Z 86400000)%Q with (1 # 86400000)%Q.
  unfold Qfloor, Qplus, Qmult, inject_Z; simpl Qnum; simpl Qden.
  symmetry. apply Z.div_unique with (r := 86400000); lia.
Qed.

Lemma ceil_weeks k : JS.ceil (inject_Z (7 * k) / 7) = k.
Proof.
  unfold JS.ceil, Qceiling.
  change (/ 7)%Q with (1 # 7)%Q.
  unfold Qfloor, Qopp, Qmult, inject_Z; simpl Qnum; simpl Qden.
  change (Z.pos (1 * 7)) with 7.
  replace (- (7 * k * 1)) with ((- k) * 7) by lia.
  rewrite Z.div_mul by lia. lia.
Qed.

Lemma oneDay_eq : oneDay = JSDate.msPerDay.
Proof. reflexivity. Qed.

Section GridFacts.
Variables from to : Z.

Lemma start_eq : start from = from - JSDate.getUTCDay from * oneDay.
Proof.
  unfold start.
  replace (JSDate.getUTCDate from - JSDate.getUTCDay from)
    with (JSDate.getUTCDate from + - JSDate.getUTCDay from) by lia.
  rewrite setUTCDate_getUTCDate. unfold JSDate.msPerDay, oneDay. lia.
Qed.

Lemma end_eq : end_ to = to + (6 - JSDate.getUTCDay to) * oneDay.
Proof. unfold end_. rewrite setUTCDate_getUTCDate. reflexivity. Qed.

Lemma start_sunday : JSDate.getUTCDay (start from) = 0.
Proof.
  rewrite start_eq. unfold JSDate.getUTCDay.
  replace (from - JSDate.WeekDay from * oneDay)
    with (from + (- JSDate.WeekDay from) * JSDate.msPerDay)
    by (unfold JSDate.msPerDay, oneDay; lia).
  rewrite WeekDay_shift. rewrite Z.add_opp_diag_r. reflexivity.
Qed.

Lemma end_saturday : JSDate.getUTCDay (end_ to) = 6.
Proof.
  rewrite end_eq. unfold JSDate.getUTCDay.
  change oneDay with JSDate.msPerDay.
  rewrite WeekDay_shift.
  replace (JSDate.WeekDay to + (6 - JSDate.WeekDay to)) with 6 by lia.
  reflexivity.
Qed.

(** When [to] is [n] days after [from], the span from [start] to [end_]
    is a whole number of weeks. *)
Lemma totalDays_eq n :
  to = from + n * oneDay ->
  totalDays from to = 7 * (1 + (JSDate.getUTCDay from + n) / 7).
Proof.
  intros Hto. unfold totalDays. rewrite start_eq, end_eq.
  assert (JSDate.getUTCDay to = (JSDate.getUTCDay from + n) mod 7) as Hwd.
  { rewrite Hto. apply WeekDay_shift. }
  rewrite Hwd.
  replace (to + (6 - (JSDate.getUTCDay from + n) mod 7) * oneDay
           - (from - JSDate.getUTCDay from * oneDay))
    with ((n + 6 - (JSDate.getUTCDay from + n) mod 7 + JSDate.getUTCDay from) * oneDay)
    by (rewrite Hto; lia).
  rewrite round_days.
  pose proof (Z.div_mod (JSDate.getUTCDay from + n) 7). lia.
Qed.

Lemma weeks_eq n :
  to = from + n * oneDay ->
  weeks from to = 1 + (JSDate.getUTCDay from + n) / 7.
Proof. intros Hto. unfold weeks. rewrite (totalDays_eq n Hto). apply ceil_weeks. Qed.

Lemma length_dates agg : List.length (dates from to agg) = Z.to_nat (totalDays from to).
Proof. unfold dates. rewrite length_fmap. apply length_seqZ. Qed.

Lemma lookup_dates agg (i : nat) en :
  dates from to agg !! i = Some en -> en = mkEntry from agg (Z.of_nat i).
Proof.
  unfold dates. rewrite list_lookup_fmap.
  destruct (seqZ 0 (totalDays from to) !! i) as [z|] eqn:Hz; [|discriminate].
  apply lookup_seqZ in Hz as [-> _]. simpl. intros [= <-]. f_equal.
Qed.

Lemma lookup_dates_lt agg (i : nat) :
  Z.of_nat i < totalDays from to ->
  dates from to agg !! i = Some (mkEntry from agg (Z.of_nat i)).
Proof.
  intros Hi. unfold dates. rewrite list_lookup_fmap.
  rewrite lookup_seqZ_lt by lia. reflexivity.
Qed.

Lemma entry_date agg i : e_date (mkEntry from agg i) = start from + i * oneDay.
Proof. reflexivity. Qed.

End GridFacts.

Section WindowFacts.
Variable e : env.
Variable now : Z.

Lemma today_eq : today now = JSDate.Day now * oneDay.
Proof. apply setUTCHours_midnight. Qed.

Lemma fromDate_eq : fromDate e now = today now - (DAYS e - 1) * oneDay.
Proof.
  unfold fromDate.
  replace (JSDate.getUTCDate (today now) - (DAYS e - 1))
    with (JSDate.getUTCDate (today now) + - (DAYS e - 1)) by lia.
  rewrite setUTCDate_getUTCDate. change oneDay with JSDate.msPerDay. lia.
Qed.

Lemma window_span : toDate now = fromDate e now + (DAYS e - 1) * oneDay.
Proof. rewrite fromDate_eq. unfold toDate. lia. Qed.
End WindowFacts.

(** ** The window and the grid *)

(** Valid [Date]s: what the limits say. *)
Lemma validTime_bounds (t : Z) :
  validTime t = true <-> - maxTime <= t <= maxTime.
Proof. unfold validTime. rewrite andb_true_iff, !Z.leb_le. reflexivity. Qed.

Lemma TimeClip_valid (t : Z) : validTime t = true -> TimeClip t = Some t.
Proof. intros H. unfold TimeClip. rewrite H. reflexivity. Qed.

Lemma validTime_between (lo hi t : Z) :
  validTime lo = true -> validTime hi = true -> lo <= t <= hi -> validTime t = true.
Proof.
  intros Hlo%validTime_bounds Hhi%validTime_bounds Ht. apply validTime_bounds. lia.
Qed.

(** Midnight of a valid [Date] is a valid [Date]. *)
Lemma today_valid (now : Z) : validTime now = true -> validTime (today now) = true.
Proof.
  intros H%validTime_bounds. apply validTime_bounds.
  rewrite today_eq, oneDay_eq. unfold maxTime, JSDate.Day, JSDate.msPerDay in *.
  Z.div_mod_to_equations. lia.
Qed.

Lemma datesValid_cases (e : env) (now : Z) :
  datesValid e now = true ->
  validTime now = true /\ validTime (fromDate e now) = true
  /\ validTime (start (fromDate e now)) = true
  /\ validTime (end_ (toDate now)) = true.
Proof. unfold datesValid. rewrite !andb_true_iff. tauto. Qed.

Lemma gridFits_bound (e : env) (now : Z) :
  gridFits e now = true <-> totalDays (fromDate e now) (toDate now) <= maxCells.
Proof. unfold gridFits. apply Z.leb_le. Qed.

Lemma withinLimits_cases (e : env) (now : Z) (w : world) :
  withinLimits e now w = true ->
  datesValid e now = true /\ gridFits e now = true
  /\ countsFit (concat (returned (doFetch e now (remote w)) (USERNAMES e))) = true
  /\ keysPlain (concat (returned (doFetch e now (remote w)) (USERNAMES e))) = true.
Proof. unfold withinLimits. rewrite !andb_true_iff. tauto. Qed.

(** C4: the window calculator.  With [D = DAYS e] and a clock [now] such
    that the clock and [from] are valid [Date]s, [to] is today at UTC midnight
    and [from] is [D - 1] whole days before it, by calendar arithmetic on UTC
    days; both are valid [Date]s.  Both are functions of the clock's UTC day
    and of [D] alone, so a fixed clock and [D] fix the window. *)
Theorem window_calculator (e : env) (now : Z) :
  validTime now = true ->
  validTime (fromDate e now) = true ->
  toDate now = today now
  /\ today now = JSDate.Day now * JSDate.msPerDay
  /\ JSDate.TimeWithinDay (today now) = 0
  /\ fromDate e now = today now - (DAYS e - 1) * JSDate.msPerDay
  /\ JSDate.Day (fromDate e now) = JSDate.Day (toDate now) - (DAYS e - 1)
  /\ JSDate.TimeWithinDay (fromDate e now) = 0
  /\ fromDate e now = (JSDate.Day now - (DAYS e - 1)) * JSDate.msPerDay
  /\ TimeClip (toDate now) = Some (toDate now)
  /\ TimeClip (fromDate e now) = Some (fromDate e now).
Proof.
  intros Hnow Hfrom.
  assert (today now = JSDate.Day now * JSDate.msPerDay) as Ht
    by (rewrite today_eq, oneDay_eq; reflexivity).
  assert (fromDate e now = today now + (- (DAYS e - 1)) * JSDate.msPerDay) as Hf.
  { rewrite fromDate_eq, oneDay_eq. lia. }
  assert (JSDate.TimeWithinDay (today now) = 0) as Hm.
  { rewrite Ht. unfold JSDate.TimeWithinDay. apply Z.mod_mul. discriminate. }
  split; [reflexivity|].
  split; [exact Ht|].
  split; [exact Hm|].
  split; [rewrite Hf; lia|].
  split; [rewrite Hf, Day_shift; unfold toDate; lia|].
  split; [rewrite Hf, TimeWithinDay_shift; exact Hm|].
  split; [rewrite Hf, Ht; lia|].
  split; [apply TimeClip_valid, today_valid, Hnow|].
  apply TimeClip_valid, Hfrom.
Qed.

(** C3: the span and the size of the grid.  For a window of at least one day
    whose [Date]s are valid, [start] is the Sunday on or before [from] and
    [end_] the Saturday on or after [to]; the number of cells is
    [7 * ceil(totalDays / 7)], where [totalDays] counts the days from [start]
    to [end_]; the cells are the consecutive days from [start] to [end_], each
    a valid [Date], so every week has its 7 cells; and a window of 365 days
    ending on a Wednesday covers 53 or 54 weeks. *)
Theorem grid_span_whole_weeks (e : env) (now : Z) (w : world) :
  1 <= DAYS e ->
  datesValid e now = true ->
  let from := fromDate e now in
  let to := toDate now in
  let g := grid e now w in
  (exists k, 0 <= k <= 6 /\ start from = from - k * oneDay
             /\ JSDate.getUTCDay (start from) = 0)
  /\ (exists k, 0 <= k <= 6 /\ end_ to = to + k * oneDay
                /\ JSDate.getUTCDay (end_ to) = 6)
  /\ totalDays from to = JSDate.Day (end_ to) - JSDate.Day (start from) + 1
  /\ Z.of_nat (List.length g) = 7 * JS.ceil (inject_Z (totalDays from to) / 7)
  /\ Z.of_nat (List.length g) = 7 * gridWeeks e now
  /\ (forall (i : nat) en, g !! i = Some en ->
        e_date en = start from + Z.of_nat i * oneDay
        /\ TimeClip (e_date en) = Some (e_date en))
  /\ e_date <$> last g = Some (end_ to)
  /\ (forall k r, 0 <= k < gridWeeks e now -> 0 <= r < 7 ->
        is_Some (g !! Z.to_nat (7 * k + r)))
  /\ (DAYS e = 365 -> JSDate.getUTCDay (today now) = 3 ->
        gridWeeks e now = 53 \/ gridWeeks e now = 54).
Proof.
  intros HD Hvalid from to g. subst from to g.
  destruct (datesValid_cases e now Hvalid) as (_ & _ & Hvs & Hve).
  unfold gridWeeks, grid, weeks.
  generalize (aggregated (fetched e now w)); intros agg.
  pose proof (window_span e now) as Hspan.
  pose proof (fromDate_eq e now) as Hfrom.
  set (from := fromDate e now) in *. set (to := toDate now) in *.
  pose proof (totalDays_eq from to _ Hspan) as Htot.
  pose proof (getUTCDay_range from) as Hwf.
  pose proof (getUTCDay_range to) as Hwt.
  assert (JSDate.getUTCDay to = (JSDate.getUTCDay from + (DAYS e - 1)) mod 7) as Hwd.
  { rewrite Hspan, oneDay_eq. apply getUTCDay_shift. }
  pose proof (Z.div_mod (JSDate.getUTCDay from + (DAYS e - 1)) 7) as Hdm.
  assert (0 <= (JSDate.getUTCDay from + (DAYS e - 1)) / 7) as Hq
    by (apply Z.div_pos; lia).
  assert (Z.of_nat (List.length (dates from to agg)) = totalDays from to) as Hlen.
  { rewrite length_dates. lia. }
  assert (end_ to = start from + (totalDays from to - 1) * oneDay) as Hend.
  { rewrite Htot, (end_eq to), (start_eq from), Hwd, Hspan. unfold oneDay. lia. }
  assert (forall (i : nat) en, dates from to agg !! i = Some en ->
            e_date en = start from + Z.of_nat i * oneDay
            /\ TimeClip (e_date en) = Some (e_date en)) as Hcells.
  { intros i en Hi.
    assert (Z.of_nat i < totalDays from to) as Hlt.
    { pose proof (lookup_lt_Some _ _ _ Hi) as Hl. lia. }
    rewrite (lookup_dates _ _ _ _ _ Hi), entry_date.
    split; [reflexivity|].
    apply TimeClip_valid.
    apply (validTime_between (start from) (end_ to)); [exact Hvs|exact Hve|].
    rewrite Hend. unfold oneDay. lia. }
  rewrite Hlen, Htot, ceil_weeks.
  split; [exists (JSDate.getUTCDay from); auto using start_eq, start_sunday|].
  split; [exists (6 - JSDate.getUTCDay to); split; [lia|]; auto using end_eq, end_saturday|].
  split.
  { rewrite (start_eq from), (end_eq to), Hwd.
    replace (from - JSDate.getUTCDay from * oneDay)
      with (from + (- JSDate.getUTCDay from) * oneDay) by lia.
    rewrite Hspan, oneDay_eq, !Day_shift. lia. }
  split; [reflexivity|].
  split; [reflexivity|].
  split.
  { exact Hcells. }
  split.
  { rewrite last_lookup, length_dates, Htot, lookup_dates_lt by lia.
    cbn [fmap option_fmap option_map].
    rewrite entry_date, (end_eq to), (start_eq from), Hwd, Hspan. f_equal. lia. }
  split.
  { intros k r Hk Hr. apply lookup_lt_is_Some. lia. }
  intros H365 Hwed. left.
  assert (JSDate.getUTCDay from = 3) as ->; [|rewrite H365; reflexivity].
  rewrite Hfrom.
  replace (today now - (DAYS e - 1) * oneDay)
    with (today now + (- (DAYS e - 1)) * oneDay) by lia.
  rewrite oneDay_eq, getUTCDay_shift, Hwed, H365. reflexivity.
Qed.
Lemma grid_span_whole_weeks_witness :
  1 <= DAYS (Sample.envOf "A,B" 365)
  /\ datesValid (Sample.envOf "A,B" 365) Sample.wednesday = true
  /\ Z.of_nat (List.length (grid (Sample.envOf "A,B" 365) Sample.wednesday
                              (Sample.node18 Sample.remoteAB)))
     = 7 * gridWeeks (Sample.envOf "A,B" 365) Sample.wednesday
  /\ (gridWeeks (Sample.envOf "A,B" 365) Sample.wednesday = 53
      \/ gridWeeks (Sample.envOf "A,B" 365) Sample.wednesday = 54).
Proof.
  assert (1 <= DAYS (Sample.envOf "A,B" 365)) as HD by (vm_compute; discriminate).
  assert (datesValid (Sample.envOf "A,B" 365) Sample.wednesday = true) as Hv
    by (vm_compute; reflexivity).
  split; [exact HD|]. split; [exact Hv|].
  destruct (grid_span_whole_weeks (Sample.envOf "A,B" 365) Sample.wednesday
              (Sample.node18 Sample.remoteAB) HD Hv)
    as (_ & _ & _ & _ & Hlen & _ & _ & _ & Hwed).
  split; [exact Hlen|].
  apply Hwed; vm_compute; reflexivity.
Defined.

Lemma window_calculator_witness :
  validTime Sample.wednesday = true
  /\ validTime (fromDate (Sample.envOf "A,B" 365) Sample.wednesday) = true
  /\ fromDate (Sample.envOf "A,B" 365) Sample.wednesday
     = (JSDate.Day Sample.wednesday - (DAYS (Sample.envOf "A,B" 365) - 1))
       * JSDate.msPerDay
  /\ TimeClip (fromDate (Sample.envOf "A,B" 365) Sample.wednesday)
     = Some (fromDate (Sample.envOf "A,B" 365) Sample.wednesday).
Proof.
  assert (validTime Sample.wednesday = true) as Hn by (vm_compute; reflexivity).
  assert (validTime (fromDate (Sample.envOf "A,B" 365) Sample.wednesday) = true) as Hf
    by (vm_compute; reflexivity).
  split; [exact Hn|]. split; [exact Hf|].
  destruct (window_calculator (Sample.envOf "A,B" 365) Sample.wednesday Hn Hf)
    as (_ & _ & _ & _ & _ & _ & Hfrom & _ & Hclip).
  split; [exact Hfrom|exact Hclip].
Defined.

(** The Wednesday window of 365 days spans 53 weeks, not 54. *)
Lemma wednesday_365_weeks (e : env) (now : Z) :
  DAYS e = 365 -> JSDate.getUTCDay (today now) = 3 -> gridWeeks e now = 53.
Proof.
  intros H365 Hwed. unfold gridWeeks.
  rewrite (weeks_eq _ _ _ (window_span e now)), fromDate_eq.
  replace (today now - (DAYS e - 1) * oneDay)
    with (today now + (- (DAYS e - 1)) * oneDay) by lia.
  rewrite oneDay_eq, getUTCDay_shift, Hwed, H365. reflexivity.
Qed.



(** ** Colour buckets *)

Section ColourFacts.

(** On positive maxima the level is the integer ceiling of [4 * cnt / max]. *)
Lemma colorLevel_pos_eq (p : positive) (cnt : N) :
  colorLevel (Npos p) cnt = - (- (4 * Z.of_N cnt) / Z.pos p).
Proof.
  unfold colorLevel, JS.ceil, Qceiling.
  change (Z.of_nat (List.length colors) - 1) with 4.
  change (inject_Z (Z.of_N (N.pos p))) with (Z.pos p # 1)%Q.
  change (/ (Z.pos p # 1))%Q with (1 # p)%Q.
  unfold Qfloor, Qopp, Qmult, inject_Z; simpl Qnum; simpl Qden.
  rewrite Pos.mul_1_l, Pos.mul_1_r. do 2 f_equal. lia.
Qed.

Lemma colorLevel_mono (max c1 c2 : N) :
  (c1 <= c2)%N -> colorLevel max c1 <= colorLevel max c2.
Proof.
  intros Hc. destruct max as [|p].
  - unfold colorLevel, JS.ceil, Qceiling, Qfloor, Qopp, Qdiv, Qmult, Qinv, inject_Z.
    simpl. rewrite !Z.mul_0_r. reflexivity.
  - rewrite !colorLevel_pos_eq.
    apply Z.opp_le_mono. rewrite !Z.opp_involutive.
    apply Z.div_le_mono; lia.
Qed.

Lemma colorLevel_ge_1 (max cnt : N) :
  (0 < cnt)%N -> (0 < max)%N -> 1 <= colorLevel max cnt.
Proof.
  intros Hc Hm. destruct max as [|p]; [lia|].
  rewrite colorLevel_pos_eq.
  assert (- (4 * Z.of_N cnt) / Z.pos p < 0); [|lia].
  apply Z.div_lt_upper_bound; lia.
Qed.

Lemma bucket_range (max cnt : N) : 0 <= bucket max cnt <= 4.
Proof.
  unfold bucket. change (Z.of_nat (List.length colors) - 1) with 4.
  destruct (N.eqb_spec cnt 0); [lia|].
  destruct (N.eqb_spec max 0); [lia|].
  pose proof (colorLevel_ge_1 max cnt). lia.
Qed.

Lemma bucket_refines_spec (max cnt : N) : bucket max cnt = bucket_spec max cnt.
Proof.
  unfold bucket, bucket_spec, clamp, levels.
  change (Z.of_nat (List.length colors) - 1) with 4. change (5 - 1) with 4.
  destruct (N.eqb_spec cnt 0); [reflexivity|].
  destruct (N.eqb_spec max 0); [reflexivity|].
  cbn [orb]. fold (JS.ceil (inject_Z (Z.of_N cnt) / inject_Z (Z.of_N max) * inject_Z 4)).
  change (JS.ceil (inject_Z (Z.of_N cnt) / inject_Z (Z.of_N max) * inject_Z 4))
    with (colorLevel max cnt).
  pose proof (colorLevel_ge_1 max cnt). lia.
Qed.

Lemma bucket_mono (max c1 c2 : N) :
  (c1 <= c2)%N -> bucket max c1 <= bucket max c2.
Proof.
  intros Hc. pose proof (bucket_range max c2) as Hr. unfold bucket in *.
  destruct (N.eqb_spec c1 0); [exact (proj1 Hr)|].
  destruct (N.eqb_spec c2 0); [lia|].
  destruct (N.eqb_spec max 0); [reflexivity|].
  pose proof (colorLevel_mono max c1 c2 Hc). lia.
Qed.
End ColourFacts.

(** The rational level is the one the doubles of the script give: checked by
    evaluation for every count up to a maximum of 256, and at counts near
    2^51. *)
Lemma colorLevel_double_agrees : doubleAgrees 256 = true.
Proof. vm_compute. reflexivity. Qed.

Example colorLevel_double_large :
  colorLevel_double 2251799813685247 562949953421312 = 2
  /\ colorLevel 2251799813685247 562949953421312 = 2
  /\ colorLevel_double 2251799813685247 562949953421311 = 1
  /\ colorLevel 2251799813685247 562949953421311 = 1.
Proof. vm_compute. auto. Qed.

(** Above 2^52 the two levels can differ: with a maximum of 2^52 + 1 the
    quotient of the count 3 * 2^50 + 1 rounds down to 3/4. *)
Example colorLevel_double_differs :
  colorLevel_double 4503599627370497 3377699720527873 = 3
  /\ colorLevel 4503599627370497 3377699720527873 = 4.
Proof. vm_compute. auto. Qed.

(** C8: the colour bucket is monotone in the count: for [c1 < c2 <= max],
    [bucket max c1 <= bucket max c2]. *)
Theorem color_bucket_monotone (max c1 c2 : N) :
  (c1 < c2)%N -> (c2 <= max)%N -> bucket max c1 <= bucket max c2.
Proof. intros Hlt _. apply bucket_mono. lia. Qed.

Lemma color_bucket_monotone_witness :
  (1 < 5)%N /\ (5 <= 5)%N /\ bucket 5 1 <= bucket 5 5.
Proof.
  assert (1 < 5)%N as H1 by reflexivity.
  assert (5 <= 5)%N as H2 by (vm_compute; discriminate).
  split; [exact H1|]. split; [exact H2|].
  exact (color_bucket_monotone 5 1 5 H1 H2).
Defined.

Example bucket_scenario : bucket 5 5 = 4 /\ bucket 5 1 = 1 /\ bucket 5 0 = 0.
Proof. vm_compute. auto. Qed.
(** ** Aggregation and the fetch loop *)

Section AggregationFacts.

Lemma lookup_addDay m d k :
  addDay m d !! k =
    if String.eqb (date d) k then Some (getCount m k + count d)%N else m !! k.
Proof.
  unfold addDay. destruct (String.eqb_spec (date d) k) as [<-|Hne].
  - apply lookup_insert_eq.
  - apply lookup_insert_ne. exact Hne.
Qed.

Lemma getCount_addDay m d k :
  getCount (addDay m d) k =
    (getCount m k + (if String.eqb (date d) k then count d else 0))%N.
Proof.
  unfold getCount at 1. rewrite lookup_addDay.
  destruct (String.eqb (date d) k); cbn [default]; [reflexivity|].
  fold (getCount m k). lia.
Qed.

Lemma getCount_addDays days : forall m k,
  getCount (addDays m days) k = (getCount m k + sumFor k days)%N.
Proof.
  induction days as [|d ds IH]; intros m k; cbn [addDays fold_left sumFor].
  - lia.
  - fold (addDays (addDay m d) ds). rewrite IH, getCount_addDay. lia.
Qed.

Lemma lookup_addDays_None days : forall m k,
  addDays m days !! k = None <->
  m !! k = None /\ Forall (fun d => date d <> k) days.
Proof.
  induction days as [|d ds IH]; intros m k; cbn [addDays fold_left].
  - split; [intros H; split; [exact H|constructor]|intros [H _]; exact H].
  - fold (addDays (addDay m d) ds). rewrite IH, lookup_addDay, Forall_cons.
    destruct (String.eqb_spec (date d) k) as [Heq|Hne].
    + split; [intros [H _]; discriminate|intros [_ [H _]]; contradiction].
    + tauto.
Qed.

Lemma addDay_comm m a b : addDay (addDay m a) b = addDay (addDay m b) a.
Proof.
  apply map_eq; intros k. rewrite !lookup_addDay, !getCount_addDay.
  destruct (String.eqb (date a) k), (String.eqb (date b) k);
    try reflexivity; f_equal; lia.
Qed.

Lemma fold_left_Permutation {A B} (f : B -> A -> B) (l l' : list A) :
  (forall b x y, f (f b x) y = f (f b y) x) ->
  Permutation l l' -> forall b, fold_left f l b = fold_left f l' b.
Proof.
  intros Hcomm Hp. induction Hp as [|x l l' _ IH|x y l|l l' l'' _ IH1 _ IH2];
    intros b; cbn [fold_left].
  - reflexivity.
  - apply IH.
  - rewrite Hcomm. reflexivity.
  - rewrite IH1. apply IH2.
Qed.

Lemma addDays_concat (lists : list (list day)) : forall m,
  fold_left addDays lists m = addDays m (concat lists).
Proof.
  induction lists as [|l ls IH]; intros m; cbn [fold_left concat].
  - reflexivity.
  - rewrite IH. unfold addDays. rewrite fold_left_app. reflexivity.
Qed.

Lemma addDays_comm m a b : addDays (addDays m a) b = addDays (addDays m b) a.
Proof.
  unfold addDays. rewrite <- !fold_left_app.
  apply fold_left_Permutation; [intros; apply addDay_comm|].
  apply Permutation_app_comm.
Qed.
End AggregationFacts.

Section FetchLoopFacts.
Variable fetch : string -> fetchError + list day.

Lemma aggregated_fetchAll users : forall p,
  aggregated (fetchAll fetch users p) = fold_left (absorb fetch) users (aggregated p).
Proof.
  induction users as [|u us IH]; intros p; cbn [fetchAll fold_left].
  - reflexivity.
  - fold (fetchAll fetch us (fetchStep fetch p u)). rewrite IH. f_equal.
    unfold fetchStep, absorb. destruct (fetch u); reflexivity.
Qed.

Lemma absorb_returned users : forall m,
  fold_left (absorb fetch) users m = fold_left addDays (returned fetch users) m.
Proof.
  induction users as [|u us IH]; intros m; cbn [fold_left returned omap list_omap].
  - reflexivity.
  - fold (returned fetch us). unfold absorb at 2.
    destruct (fetch u) as [err|days]; cbn [fold_left]; apply IH.
Qed.

Lemma absorb_comm m u v : absorb fetch (absorb fetch m u) v = absorb fetch (absorb fetch m v) u.
Proof.
  unfold absorb. destruct (fetch u), (fetch v); try reflexivity.
  apply addDays_comm.
Qed.

Lemma absorb_failed m u : failed (fetch u) = true -> absorb fetch m u = m.
Proof. unfold absorb. destruct (fetch u); [reflexivity|discriminate]. Qed.

Lemma absorb_all_failed users :
  Forall (fun u => failed (fetch u) = true) users ->
  forall m, fold_left (absorb fetch) users m = m.
Proof.
  induction 1 as [|u us Hu _ IH]; intros m; cbn [fold_left].
  - reflexivity.
  - rewrite IH. apply absorb_failed, Hu.
Qed.

Lemma exitCode_fetchAll users : forall p,
  exitCode (fetchAll fetch users p) =
    if existsb (fun u => failed (fetch u)) users then 2 else exitCode p.
Proof.
  induction users as [|u us IH]; intros p; cbn [fetchAll fold_left existsb].
  - reflexivity.
  - fold (fetchAll fetch us (fetchStep fetch p u)). rewrite IH.
    unfold fetchStep. destruct (fetch u); cbn [failed orb exitCode].
    + destruct (existsb _ us); reflexivity.
    + reflexivity.
Qed.

Lemma fetchesOf_app c c' : fetchesOf (c ++ c') = fetchesOf c ++ fetchesOf c'.
Proof. unfold fetchesOf. apply omap_app. Qed.

Lemma fetchesOf_fetchAll users : forall p,
  fetchesOf (console (fetchAll fetch users p)) = fetchesOf (console p) ++ users.
Proof.
  induction users as [|u us IH]; intros p; cbn [fetchAll fold_left].
  - rewrite app_nil_r. reflexivity.
  - fold (fetchAll fetch us (fetchStep fetch p u)). rewrite IH.
    unfold fetchStep. destruct (fetch u); cbn [console];
      rewrite ?fetchesOf_app; cbn; rewrite ?app_nil_r, <- app_assoc; reflexivity.
Qed.
End FetchLoopFacts.

Lemma fetchAll_ext (f g : string -> fetchError + list day) users :
  Forall (fun u => f u = g u) users ->
  forall p, fetchAll f users p = fetchAll g users p.
Proof.
  induction 1 as [|u us Hu _ IH]; intros p; cbn [fetchAll fold_left].
  - reflexivity.
  - fold (fetchAll f us (fetchStep f p u)). fold (fetchAll g us (fetchStep g p u)).
    rewrite IH. f_equal. unfold fetchStep. rewrite Hu. reflexivity.
Qed.

Lemma returned_filter fetch users :
  returned fetch (List.filter (fun u => negb (failed (fetch u))) users)
  = returned fetch users.
Proof.
  induction users as [|u us IH]; [reflexivity|]. cbn [List.filter].
  destruct (fetch u) as [err|days] eqn:Hu; cbn [failed negb].
  - unfold returned at 2. cbn [omap list_omap]. rewrite Hu. exact IH.
  - unfold returned. cbn [omap list_omap]. rewrite Hu. f_equal. exact IH.
Qed.

(** ** The run *)

Section RunFacts.
Variable e : env.
Variable now : Z.
Variable w : world.

Lemma main_ok :
  hasFetch w = true -> writable w = true ->
  main e now w =
    {| status := exitCode (fetched e now w);
       file := Some (svg e now w);
       output := console (fetched e now w)
                 ++ [LogWritten (List.length (grid e now w)) (gridWeeks e now)] |}.
Proof. intros Hf Hw. unfold main. rewrite Hf, Hw. reflexivity. Qed.

Lemma main_fatal :
  hasFetch w = false \/ writable w = false -> status (main e now w) = 1.
Proof.
  intros H. unfold main.
  destruct (hasFetch w); [|reflexivity].
  destruct (writable w); [|reflexivity].
  destruct H; discriminate.
Qed.

Lemma fetchesOf_warnings : fetchesOf (warnings e) = [].
Proof. unfold warnings. destruct (TOKEN e); reflexivity. Qed.

Lemma fetchesOf_fetched : fetchesOf (console (fetched e now w)) = USERNAMES e.
Proof.
  unfold fetched. rewrite fetchesOf_fetchAll. cbn [console].
  rewrite fetchesOf_warnings. reflexivity.
Qed.

Lemma exitCode_fetched :
  exitCode (fetched e now w) =
    if existsb (fun u => failed (doFetch e now (remote w) u)) (USERNAMES e)
    then 2 else 0.
Proof. unfold fetched. rewrite exitCode_fetchAll. reflexivity. Qed.

Lemma aggregated_fetched k :
  getCount (aggregated (fetched e now w)) k =
    sumFor k (concat (returned (doFetch e now (remote w)) (USERNAMES e))).
Proof.
  unfold fetched. rewrite aggregated_fetchAll, absorb_returned, addDays_concat.
  rewrite getCount_addDays. reflexivity.
Qed.
End RunFacts.

Lemma dates_empty_zero (from to : Z) :
  Forall (fun en => e_count en = 0%N) (dates from to ∅).
Proof.
  unfold dates. apply Forall_fmap, Forall_forall. intros i _. reflexivity.
Qed.

Lemma maxCount_zero (ds : list entry) :
  Forall (fun en => e_count en = 0%N) ds -> maxCount ds = 0%N.
Proof.
  unfold maxCount. induction 1 as [|en l Hen _ IH]; cbn [fmap list_fmap fold_right].
  - reflexivity.
  - fold (fmap (M:=list) e_count l). rewrite IH, Hen. reflexivity.
Qed.

Lemma sumAll_cons (d : day) (ds : list day) :
  sumAll (d :: ds) = (count d + sumAll ds)%N.
Proof. reflexivity. Qed.

Lemma sumFor_le_sumAll (k : string) (days : list day) :
  (sumFor k days <= sumAll days)%N.
Proof.
  induction days as [|d ds IH]; [reflexivity|].
  rewrite sumAll_cons. cbn [sumFor]. destruct (String.eqb (date d) k); lia.
Qed.

Lemma countsFit_bound (days : list day) :
  countsFit days = true <-> (sumAll days < maxTotal)%N.
Proof. unfold countsFit. apply N.ltb_lt. Qed.

Lemma keysPlain_key (days : list day) (k : string) :
  keysPlain days = true -> ~ Forall (fun d => date d <> k) days -> plainKey k = true.
Proof.
  unfold keysPlain. rewrite forallb_forall. intros Hp Hn.
  apply not_Forall_Exists in Hn; [|intros d; apply _].
  apply Exists_exists in Hn as (d & Hd & Hk).
  destruct (decide (date d = k)) as [<-|Hne]; [|contradiction (Hk Hne)].
  apply Hp, list_elem_of_In, Hd.
Qed.

(** What the run aggregates, and the file it writes. *)
Lemma aggregated_returned (e : env) (now : Z) (w : world) :
  aggregated (fetched e now w)
  = addDays ∅ (concat (returned (doFetch e now (remote w)) (USERNAMES e))).
Proof.
  unfold fetched. rewrite aggregated_fetchAll, absorb_returned, addDays_concat.
  reflexivity.
Qed.

Lemma cell_count_le (e : env) (now : Z) (w : world) (en : entry) :
  en ∈ grid e now w ->
  (e_count en
   <= sumAll (concat (returned (doFetch e now (remote w)) (USERNAMES e))))%N.
Proof.
  unfold grid, dates. intros (z & -> & _)%list_elem_of_fmap.
  cbn [mkEntry e_count]. rewrite aggregated_fetched. apply sumFor_le_sumAll.
Qed.

(** C1: aggregation.  As long as the counts that the fetches return stay
    within the limit of exact sums and no date is a name that the object
    inherits, the aggregated mapping holds for every date the sum of the counts
    that the accounts whose fetch returned report for it, and no entry for a
    date that none of them reports; every value is within the limit and every
    key a date that was reported; the mapping does not depend on the order in
    which the accounts are fetched; and when account A reports
    [{2024-01-01: 3}] and account B [{2024-01-01: 2, 2024-01-02: 1}] it is
    [{2024-01-01: 5, 2024-01-02: 1}], in either order. *)
Theorem aggregation_sums_per_date
    (fetch : string -> fetchError + list day) (users : list string) (c : list event) :
  countsFit (concat (returned fetch users)) = true ->
  keysPlain (concat (returned fetch users)) = true ->
  let agg := fun us =>
    aggregated (fetchAll fetch us {| aggregated := ∅; exitCode := 0; console := c |}) in
  (forall k, getCount (agg users) k = sumFor k (concat (returned fetch users)))
  /\ (forall k, agg users !! k = None <->
                Forall (fun d => date d <> k) (concat (returned fetch users)))
  /\ (forall k, (getCount (agg users) k < maxTotal)%N)
  /\ (forall k, is_Some (agg users !! k) -> plainKey k = true)
  /\ (forall users', Permutation users users' -> agg users' = agg users)
  /\ aggregated (fetched (Sample.envOf "A,B" 365) Sample.wednesday
                   (Sample.node18 Sample.remoteAB))
     = {[ "2024-01-01"%string := 5%N; "2024-01-02"%string := 1%N ]}
  /\ aggregated (fetched (Sample.envOf "B,A" 365) Sample.wednesday
                   (Sample.node18 Sample.remoteAB))
     = {[ "2024-01-01"%string := 5%N; "2024-01-02"%string := 1%N ]}.
Proof.
  intros Hfit%countsFit_bound Hplain agg. subst agg. cbv beta.
  assert (forall k, getCount (aggregated (fetchAll fetch users
                      {| aggregated := ∅; exitCode := 0; console := c |})) k
                    = sumFor k (concat (returned fetch users))) as Hsum.
  { intros k. rewrite aggregated_fetchAll, absorb_returned, addDays_concat.
    rewrite getCount_addDays. reflexivity. }
  assert (forall k, aggregated (fetchAll fetch users
                      {| aggregated := ∅; exitCode := 0; console := c |}) !! k = None
                    <-> Forall (fun d => date d <> k) (concat (returned fetch users)))
    as Hnone.
  { intros k. rewrite aggregated_fetchAll, absorb_returned, addDays_concat.
    rewrite lookup_addDays_None. cbn [aggregated]. rewrite lookup_empty. tauto. }
  split; [exact Hsum|].
  split; [exact Hnone|].
  split.
  { intros k. rewrite Hsum.
    pose proof (sumFor_le_sumAll k (concat (returned fetch users))). lia. }
  split.
  { intros k [v Hv]. apply (keysPlain_key _ k Hplain).
    intros Hall. apply Hnone in Hall. rewrite Hall in Hv. discriminate. }
  split.
  { intros users' Hp. rewrite !aggregated_fetchAll. symmetry.
    apply fold_left_Permutation; [intros; apply absorb_comm|exact Hp]. }
  split; vm_compute; reflexivity.
Qed.
Lemma aggregation_sums_per_date_witness :
  countsFit (concat (returned (doFetch Sample.noEnv Sample.wednesday Sample.remoteAB)
                       ["A"; "B"]%string)) = true
  /\ keysPlain (concat (returned (doFetch Sample.noEnv Sample.wednesday Sample.remoteAB)
                          ["A"; "B"]%string)) = true
  /\ Permutation ["A"; "B"]%string ["B"; "A"]%string
  /\ aggregated (fetchAll (doFetch Sample.noEnv Sample.wednesday Sample.remoteAB)
                   ["B"; "A"]%string
                   {| aggregated := ∅; exitCode := 0; console := [] |})
     = aggregated (fetchAll (doFetch Sample.noEnv Sample.wednesday Sample.remoteAB)
                     ["A"; "B"]%string
                     {| aggregated := ∅; exitCode := 0; console := [] |})
  /\ getCount (aggregated (fetchAll (doFetch Sample.noEnv Sample.wednesday
                                      Sample.remoteAB)
                             ["A"; "B"]%string
                             {| aggregated := ∅; exitCode := 0; console := [] |}))
       "2024-01-01"
     = 5%N.
Proof.
  assert (countsFit (concat (returned (doFetch Sample.noEnv Sample.wednesday
                                         Sample.remoteAB) ["A"; "B"]%string)) = true)
    as Hfit by (vm_compute; reflexivity).
  assert (keysPlain (concat (returned (doFetch Sample.noEnv Sample.wednesday
                                         Sample.remoteAB) ["A"; "B"]%string)) = true)
    as Hplain by (vm_compute; reflexivity).
  assert (Permutation ["A"; "B"]%string ["B"; "A"]%string) as Hp by apply perm_swap.
  split; [exact Hfit|]. split; [exact Hplain|]. split; [exact Hp|].
  destruct (aggregation_sums_per_date
              (doFetch Sample.noEnv Sample.wednesday Sample.remoteAB)
              ["A"; "B"]%string [] Hfit Hplain) as (Hsum & _ & _ & _ & Hperm & _).
  split; [exact (Hperm _ Hp)|].
  rewrite Hsum. vm_compute. reflexivity.
Defined.

(** C5: a failed fetch does not stop the run.  In a run within the limits of
    the engine, when the fetch of one account fails, every configured account
    is still fetched, what the others return is aggregated as usual, the file
    is written, and the exit status is 2: not 0, and not the status 1 of a run
    that aborts (no [fetch], or no file written). *)
Theorem partial_failure_continues
    (e : env) (now : Z) (w : world) (i : nat) (u : string) (err : fetchError) :
  hasFetch w = true ->
  writable w = true ->
  withinLimits e now w = true ->
  USERNAMES e !! i = Some u ->
  doFetch e now (remote w) u = inl err ->
  fetchesOf (output (main e now w)) = USERNAMES e
  /\ (forall k, getCount (aggregated (fetched e now w)) k =
                sumFor k (concat (returned (doFetch e now (remote w)) (USERNAMES e))))
  /\ aggregated (fetched e now w)
     = aggregated (fetchAll (doFetch e now (remote w))
                     (List.filter (fun v => negb (failed (doFetch e now (remote w) v)))
                        (USERNAMES e))
                     {| aggregated := ∅; exitCode := 0; console := warnings e |})
  /\ file (main e now w) = Some (svg e now w)
  /\ status (main e now w) = 2
  /\ status (main e now w) <> 0
  /\ (forall w', hasFetch w' = false \/ writable w' = false ->
        status (main e now w') = 1 /\ status (main e now w') <> status (main e now w)).
Proof.
  intros Hf Hw _ Hu Herr.
  assert (status (main e now w) = 2) as Hs.
  { rewrite (main_ok e now w Hf Hw). cbn [status]. rewrite exitCode_fetched.
    replace (existsb _ (USERNAMES e)) with true; [reflexivity|].
    symmetry. apply existsb_exists. exists u. split.
    - apply list_elem_of_In, list_elem_of_lookup. exists i. exact Hu.
    - rewrite Herr. reflexivity. }
  split.
  { rewrite (main_ok e now w Hf Hw). cbn [output].
    rewrite fetchesOf_app, fetchesOf_fetched. apply app_nil_r. }
  split; [apply aggregated_fetched|].
  split.
  { unfold fetched. rewrite !aggregated_fetchAll, !absorb_returned, returned_filter.
    reflexivity. }
  split; [rewrite (main_ok e now w Hf Hw); reflexivity|].
  split; [exact Hs|].
  split; [rewrite Hs; discriminate|].
  intros w' Hfatal. rewrite Hs, (main_fatal e now w' Hfatal).
  split; [reflexivity|discriminate].
Qed.

Lemma partial_failure_continues_witness :
  hasFetch (Sample.node18 Sample.remoteAB) = true
  /\ writable (Sample.node18 Sample.remoteAB) = true
  /\ withinLimits (Sample.envOf "A, nobody ,B" 10) Sample.wednesday
       (Sample.node18 Sample.remoteAB) = true
  /\ USERNAMES (Sample.envOf "A, nobody ,B" 10) !! 1%nat = Some "nobody"%string
  /\ status (main (Sample.envOf "A, nobody ,B" 10) Sample.wednesday
               (Sample.node18 Sample.remoteAB)) = 2
  /\ fetchesOf (output (main (Sample.envOf "A, nobody ,B" 10) Sample.wednesday
                          (Sample.node18 Sample.remoteAB)))
     = ["A"; "nobody"; "B"]%string
  /\ getCount (aggregated (fetched (Sample.envOf "A, nobody ,B" 10) Sample.wednesday
                             (Sample.node18 Sample.remoteAB))) "2024-01-01" = 5%N.
Proof.
  assert (hasFetch (Sample.node18 Sample.remoteAB) = true) as Hf by reflexivity.
  assert (writable (Sample.node18 Sample.remoteAB) = true) as Hw by reflexivity.
  assert (withinLimits (Sample.envOf "A, nobody ,B" 10) Sample.wednesday
            (Sample.node18 Sample.remoteAB) = true) as Hl by (vm_compute; reflexivity).
  assert (USERNAMES (Sample.envOf "A, nobody ,B" 10) !! 1%nat = Some "nobody"%string)
    as Hu by (vm_compute; reflexivity).
  assert (doFetch (Sample.envOf "A, nobody ,B" 10) Sample.wednesday
            (remote (Sample.node18 Sample.remoteAB)) "nobody"
          = inl (GraphQLError "nobody" "[{message:NOT_FOUND}]")) as Herr
    by (vm_compute; reflexivity).
  destruct (partial_failure_continues _ _ _ _ _ _ Hf Hw Hl Hu Herr)
    as (Hall & Hagg & _ & _ & Hs & _).
  split; [exact Hf|]. split; [exact Hw|]. split; [exact Hl|]. split; [exact Hu|].
  split; [exact Hs|].
  split; [rewrite Hall; vm_compute; reflexivity|].
  rewrite Hagg. vm_compute. reflexivity.
Defined.

(** C6: when the fetch of every account fails.  For a window of at least one
    day, valid [Date]s and a grid that the engine takes, the aggregated mapping
    is empty; the grid is there all the same: whole weeks of cells, one for
    every day of the window at least, each with count 0 and bucket 0, and one
    rectangle per cell in the colour of bucket 0; the file is still written,
    and the exit status is the failure status 2. *)
Theorem total_failure_all_zero (e : env) (now : Z) (w : world) :
  hasFetch w = true ->
  writable w = true ->
  USERNAMES e <> [] ->
  Forall (fun u => failed (doFetch e now (remote w) u) = true) (USERNAMES e) ->
  1 <= DAYS e ->
  datesValid e now = true ->
  gridFits e now = true ->
  aggregated (fetched e now w) = ∅
  /\ Z.of_nat (List.length (grid e now w)) = 7 * gridWeeks e now
  /\ DAYS e <= Z.of_nat (List.length (grid e now w)) <= maxCells
  /\ (forall j, 0 <= j < DAYS e ->
        exists en,
          grid e now w !! Z.to_nat (JSDate.getUTCDay (fromDate e now) + j) = Some en
          /\ e_date en = fromDate e now + j * oneDay
          /\ e_count en = 0%N)
  /\ Forall (fun en => e_count en = 0%N
                       /\ bucket (maxCount (grid e now w)) (e_count en) = 0)
       (grid e now w)
  /\ maxCount (grid e now w) = 0%N
  /\ List.length (rects (CELL_SIZE e) (GAP e) (maxCount (grid e now w)) (grid e now w))
     = List.length (grid e now w)
  /\ Forall (fun r => fill r = "#ebedf0"%string)
       (rects (CELL_SIZE e) (GAP e) (maxCount (grid e now w)) (grid e now w))
  /\ file (main e now w) = Some (svg e now w)
  /\ status (main e now w) = 2.
Proof.
  intros Hf Hw Hne Hall HD _ Hfits.
  assert (aggregated (fetched e now w) = ∅) as Hagg.
  { unfold fetched. rewrite aggregated_fetchAll. cbn [aggregated].
    apply absorb_all_failed, Hall. }
  assert (Forall (fun en => e_count en = 0%N) (grid e now w)) as Hzero.
  { unfold grid. rewrite Hagg. apply dates_empty_zero. }
  assert (maxCount (grid e now w) = 0%N) as Hmax by apply maxCount_zero, Hzero.
  assert (Z.of_nat (List.length (grid e now w))
          = totalDays (fromDate e now) (toDate now)
          /\ totalDays (fromDate e now) (toDate now)
             = 7 * (1 + (JSDate.getUTCDay (fromDate e now) + (DAYS e - 1)) / 7)
          /\ gridWeeks e now
             = 1 + (JSDate.getUTCDay (fromDate e now) + (DAYS e - 1)) / 7)
    as (Hlen & Htot & Hweeks).
  { unfold grid, gridWeeks. rewrite length_dates.
    pose proof (window_span e now) as Hspan.
    set (from := fromDate e now) in *. set (to := toDate now) in *.
    pose proof (getUTCDay_range from) as Hwf.
    rewrite (weeks_eq from to _ Hspan), (totalDays_eq from to _ Hspan).
    assert (0 <= (JSDate.getUTCDay from + (DAYS e - 1)) / 7)
      by (apply Z.div_pos; lia).
    split; [lia|]. split; reflexivity. }
  pose proof (getUTCDay_range (fromDate e now)) as Hwf.
  pose proof (Z.div_mod (JSDate.getUTCDay (fromDate e now) + (DAYS e - 1)) 7) as Hdm.
  pose proof (Z.mod_pos_bound (JSDate.getUTCDay (fromDate e now) + (DAYS e - 1)) 7)
    as Hmod.
  split; [exact Hagg|].
  split; [rewrite Hlen, Htot, Hweeks; reflexivity|].
  split.
  { split; [rewrite Hlen, Htot; lia|].
    rewrite Hlen. exact (proj1 (gridFits_bound e now) Hfits). }
  split.
  { intros j Hj.
    assert (is_Some (grid e now w
                       !! Z.to_nat (JSDate.getUTCDay (fromDate e now) + j))) as [en Hen].
    { apply lookup_lt_is_Some. lia. }
    exists en. split; [exact Hen|].
    rewrite Forall_forall in Hzero.
    split; [|apply Hzero, list_elem_of_lookup; eexists; exact Hen].
    revert Hen. unfold grid. generalize (aggregated (fetched e now w)). intros agg Hen.
    rewrite (lookup_dates _ _ _ _ _ Hen), entry_date, (start_eq (fromDate e now)).
    unfold oneDay. lia. }
  split.
  { eapply Forall_impl; [exact Hzero|]. intros en Hen. split; [exact Hen|].
    rewrite Hen. reflexivity. }
  split; [exact Hmax|].
  split; [unfold rects; apply length_imap|].
  split.
  { unfold rects. apply Forall_forall. intros r Hr.
    apply list_elem_of_lookup in Hr as [i Hi]. revert Hi.
    rewrite list_lookup_imap.
    destruct (grid e now w !! i) as [en|] eqn:Hen; [|discriminate].
    intros [= <-]. cbn [mkRect fill].
    rewrite Forall_forall in Hzero.
    rewrite (Hzero en) by (apply list_elem_of_lookup; exists i; exact Hen).
    reflexivity. }
  split; [rewrite (main_ok e now w Hf Hw); reflexivity|].
  rewrite (main_ok e now w Hf Hw). cbn [status]. rewrite exitCode_fetched.
  destruct Hall as [|u us Hu _]; [contradiction|].
  cbn [existsb]. rewrite Hu. reflexivity.
Qed.

Lemma total_failure_all_zero_witness :
  USERNAMES (Sample.envOf "x,y" 10) <> []
  /\ 1 <= DAYS (Sample.envOf "x,y" 10)
  /\ datesValid (Sample.envOf "x,y" 10) Sample.wednesday = true
  /\ gridFits (Sample.envOf "x,y" 10) Sample.wednesday = true
  /\ aggregated (fetched (Sample.envOf "x,y" 10) Sample.wednesday
                   (Sample.node18 Sample.remoteAB)) = ∅
  /\ DAYS (Sample.envOf "x,y" 10)
     <= Z.of_nat (List.length (grid (Sample.envOf "x,y" 10) Sample.wednesday
                                 (Sample.node18 Sample.remoteAB)))
     <= maxCells
  /\ maxCount (grid (Sample.envOf "x,y" 10) Sample.wednesday
                 (Sample.node18 Sample.remoteAB)) = 0%N
  /\ status (main (Sample.envOf "x,y" 10) Sample.wednesday
               (Sample.node18 Sample.remoteAB)) = 2.
Proof.
  assert (USERNAMES (Sample.envOf "x,y" 10) <> []) as Hne by (vm_compute; discriminate).
  assert (Forall (fun u => failed (doFetch (Sample.envOf "x,y" 10) Sample.wednesday
                                     (remote (Sample.node18 Sample.remoteAB)) u) = true)
            (USERNAMES (Sample.envOf "x,y" 10))) as Hall
    by (vm_compute; repeat constructor).
  assert (1 <= DAYS (Sample.envOf "x,y" 10)) as HD by (vm_compute; discriminate).
  assert (datesValid (Sample.envOf "x,y" 10) Sample.wednesday = true) as Hv
    by (vm_compute; reflexivity).
  assert (gridFits (Sample.envOf "x,y" 10) Sample.wednesday = true) as Hg
    by (vm_compute; reflexivity).
  destruct (total_failure_all_zero (Sample.envOf "x,y" 10) Sample.wednesday
              (Sample.node18 Sample.remoteAB) eq_refl eq_refl Hne Hall HD Hv Hg)
    as (Hagg & _ & Hlen & _ & _ & Hmax & _ & _ & _ & Hs).
  split; [exact Hne|]. split; [exact HD|]. split; [exact Hv|]. split; [exact Hg|].
  split; [exact Hagg|]. split; [exact Hlen|]. split; [exact Hmax|exact Hs].
Defined.

(** The window depends on the clock through its UTC day only. *)
Lemma window_same_day (e : env) (now now' : Z) :
  JSDate.Day now = JSDate.Day now' ->
  fromDate e now = fromDate e now' /\ toDate now = toDate now'.
Proof.
  intros Hday. split.
  - rewrite !fromDate_eq, !today_eq, Hday. reflexivity.
  - unfold toDate. rewrite !today_eq, Hday. reflexivity.
Qed.

Lemma mkRequest_same_day (e : env) (now now' : Z) (u : string) :
  JSDate.Day now = JSDate.Day now' -> mkRequest e now u = mkRequest e now' u.
Proof.
  intros Hday. destruct (window_same_day e now now' Hday) as [Hfrom Hto].
  unfold mkRequest. rewrite Hfrom, Hto. reflexivity.
Qed.

Lemma main_same_day (e : env) (now now' : Z) (w w' : world) :
  JSDate.Day now = JSDate.Day now' ->
  hasFetch w = hasFetch w' ->
  writable w = writable w' ->
  Forall (fun u => remote w (mkRequest e now u) = remote w' (mkRequest e now u))
    (USERNAMES e) ->
  main e now w = main e now' w'.
Proof.
  intros Hday Hf Hw Hr.
  destruct (window_same_day e now now' Hday) as [Hfrom Hto].
  assert (fetched e now w = fetched e now' w') as Hfetched.
  { unfold fetched. apply fetchAll_ext.
    eapply Forall_impl; [exact Hr|]. intros u Hu. unfold doFetch.
    rewrite <- (mkRequest_same_day e now now' u Hday), Hu. reflexivity. }
  unfold main, svg, grid, gridWeeks. rewrite Hf, Hw, Hfetched, Hfrom, Hto. reflexivity.
Qed.

(** C9: determinism.  Two runs with the same environment, clocks on the same
    UTC day (the same clock in particular), in worlds that agree on [fetch], on
    the file system and on the responses to the requests of the configured
    accounts, end in the same outcome: the same bytes in the file, the same
    status, the same console.  Within the limits of the engine the file, when
    written, is the rendering of the grid of the window for the sums of what
    the fetches returned: the layout and the colours are fixed by the
    environment, the UTC day and the responses. *)
Theorem run_deterministic (e : env) (now now' : Z) (w w' : world) :
  JSDate.Day now = JSDate.Day now' ->
  hasFetch w = hasFetch w' ->
  writable w = writable w' ->
  Forall (fun u => remote w (mkRequest e now u) = remote w' (mkRequest e now u))
    (USERNAMES e) ->
  withinLimits e now w = true ->
  validTime now' = true ->
  main e now w = main e now' w'
  /\ file (main e now w) = file (main e now' w')
  /\ (hasFetch w = true -> writable w = true ->
       exists g,
         g = dates (fromDate e now) (toDate now)
               (addDays ∅ (concat (returned (doFetch e now (remote w)) (USERNAMES e))))
         /\ file (main e now w)
            = Some (svgText (CELL_SIZE e) (GAP e) (maxCount g)
                      (weeks (fromDate e now) (toDate now)) g)
         /\ file (main e now' w')
            = Some (svgText (CELL_SIZE e) (GAP e) (maxCount g)
                      (weeks (fromDate e now) (toDate now)) g)).
Proof.
  intros Hday Hf Hw Hr _ _.
  pose proof (main_same_day e now now' w w' Hday Hf Hw Hr) as Hmain.
  split; [exact Hmain|].
  split; [rewrite Hmain; reflexivity|].
  intros Hft Hwt. eexists. split; [reflexivity|].
  rewrite <- Hmain, (main_ok e now w Hft Hwt). cbn [file].
  unfold svg, grid, gridWeeks. rewrite aggregated_returned.
  split; reflexivity.
Qed.

Lemma run_deterministic_witness :
  JSDate.Day Sample.wednesday = JSDate.Day (Sample.wednesday + 3600000)
  /\ Forall (fun u => remote (Sample.node18 Sample.remoteAB)
                        (mkRequest (Sample.envOf "A,B" 10) Sample.wednesday u)
                      = remote (Sample.node18 Sample.remoteOnlyAB)
                          (mkRequest (Sample.envOf "A,B" 10) Sample.wednesday u))
       (USERNAMES (Sample.envOf "A,B" 10))
  /\ withinLimits (Sample.envOf "A,B" 10) Sample.wednesday
       (Sample.node18 Sample.remoteAB) = true
  /\ validTime (Sample.wednesday + 3600000) = true
  /\ file (main (Sample.envOf "A,B" 10) Sample.wednesday (Sample.node18 Sample.remoteAB))
     = file (main (Sample.envOf "A,B" 10) (Sample.wednesday + 3600000)
               (Sample.node18 Sample.remoteOnlyAB)).
Proof.
  assert (JSDate.Day Sample.wednesday = JSDate.Day (Sample.wednesday + 3600000)) as Hd
    by (vm_compute; reflexivity).
  assert (Forall (fun u => remote (Sample.node18 Sample.remoteAB)
                             (mkRequest (Sample.envOf "A,B" 10) Sample.wednesday u)
                           = remote (Sample.node18 Sample.remoteOnlyAB)
                               (mkRequest (Sample.envOf "A,B" 10) Sample.wednesday u))
            (USERNAMES (Sample.envOf "A,B" 10))) as Hr
    by (vm_compute; repeat constructor).
  assert (withinLimits (Sample.envOf "A,B" 10) Sample.wednesday
            (Sample.node18 Sample.remoteAB) = true) as Hl by (vm_compute; reflexivity).
  assert (validTime (Sample.wednesday + 3600000) = true) as Hv
    by (vm_compute; reflexivity).
  split; [exact Hd|]. split; [exact Hr|]. split; [exact Hl|]. split; [exact Hv|].
  destruct (run_deterministic (Sample.envOf "A,B" 10) Sample.wednesday
              (Sample.wednesday + 3600000)
              (Sample.node18 Sample.remoteAB) (Sample.node18 Sample.remoteOnlyAB)
              Hd eq_refl eq_refl Hr Hl Hv) as (_ & Hfile & _).
  exact Hfile.
Defined.
(** ** The account list *)

Section TrimFacts.








Lemma split_nonempty sep s : JS.split sep s <> [].
Proof.
  destruct s as [|c s]; cbn [JS.split]; [discriminate|].
  destruct (Ascii.eqb c sep); [discriminate|].
  destruct (JS.split sep s); discriminate.
Qed.


End TrimFacts.



Example usernames_padded :
  USERNAMES (Sample.envOf "  a , b ,, ,c  " 365) = ["a"; "b"; "c"]%string.
Proof. reflexivity. Qed.

(** * Further properties *)

(** ** The response of one account *)

Lemma pushDays_mapM ds : forall acc,
  pushDays ds acc = (fun l => acc ++ l) <$> mapM dayOf ds.
Proof.
  induction ds as [|d ds IH]; intros acc; cbn [pushDays].
  - cbn. rewrite app_nil_r. reflexivity.
  - change (mapM dayOf (d :: ds))
      with (dayOf d ≫= fun y => mapM dayOf ds ≫= fun k => mret (y :: k)).
    destruct (cd_date d) as [s|] eqn:Hd.
    + assert (dayOf d = Some {| date := JS.slice0 10 s; count := contributionCount d |})
        as -> by (unfold dayOf; rewrite Hd; reflexivity).
      rewrite IH. destruct (mapM dayOf ds) as [l|]; cbn; [|reflexivity].
      rewrite <- app_assoc. reflexivity.
    + assert (dayOf d = None) as -> by (unfold dayOf; rewrite Hd; reflexivity).
      reflexivity.
Qed.

Lemma pushWeeks_mapM ws : forall acc,
  pushWeeks ws acc = (fun l => acc ++ concat l) <$> mapM weekDays ws.
Proof.
  induction ws as [|w ws IH]; intros acc; cbn [pushWeeks].
  - cbn. rewrite app_nil_r. reflexivity.
  - change (mapM weekDays (w :: ws))
      with (weekDays w ≫= fun y => mapM weekDays ws ≫= fun k => mret (y :: k)).
    destruct (contributionDays w) as [ds|] eqn:Hw.
    + rewrite pushDays_mapM.
      assert (weekDays w = mapM dayOf ds) as -> by (unfold weekDays; rewrite Hw; reflexivity).
      destruct (mapM dayOf ds) as [l|]; cbn; [|reflexivity].
      rewrite IH. destruct (mapM weekDays ws) as [ls|]; cbn; [|reflexivity].
      rewrite <- app_assoc. reflexivity.
    + assert (weekDays w = None) as -> by (unfold weekDays; rewrite Hw; reflexivity).
      reflexivity.
Qed.

Lemma slice0_length n s : (String.length (JS.slice0 n s) <= n)%nat.
Proof.
  unfold JS.slice0. revert s. induction n as [|n IH]; intros s.
  - destruct s; cbn; lia.
  - destruct s as [|c s]; cbn; [lia|]. specialize (IH s). lia.
Qed.

Lemma doFetch_cases (e : env) (now : Z) (remote : request -> response) (login : string) :
  doFetch e now remote login =
    match remote (mkRequest e now login) with
    | Rejected msg => inl (FetchRejected msg)
    | Json (Some errs) _ => inl (GraphQLError login errs)
    | Json None None => inl TypeError
    | Json None (Some ws) =>
        match mapM weekDays (default [] ws) with
        | Some dss => inr (concat dss)
        | None => inl TypeError
        end
    end.
Proof.
  unfold doFetch. destruct (remote (mkRequest e now login)) as [msg|[errs|] [ws|]];
    try reflexivity.
  rewrite pushWeeks_mapM. destruct (mapM weekDays (default [] ws)); reflexivity.
Qed.

Lemma dayOf_record (d : contributionDay) (r : day) :
  dayOf d = Some r ->
  exists s, cd_date d = Some s /\ date r = JS.slice0 10 s
            /\ count r = contributionCount d.
Proof.
  unfold dayOf. destruct (cd_date d) as [s|]; [|discriminate].
  intros [= <-]. exists s. auto.
Qed.

Lemma weeks_records (ws : list week) (l : list (list day)) :
  Forall2 (fun w r => weekDays w = Some r) ws l ->
  exists dss,
    Forall2 (fun w ds => contributionDays w = Some ds) ws dss
    /\ Forall2 (fun d r => exists s, cd_date d = Some s /\ date r = JS.slice0 10 s
                                     /\ count r = contributionCount d)
         (concat dss) (concat l).
Proof.
  induction 1 as [|w r ws l Hw _ (dss & Hdss & Hrec)].
  - exists []. split; constructor.
  - unfold weekDays in Hw. destruct (contributionDays w) as [ds|] eqn:Hds; [|discriminate].
    cbn in Hw. apply mapM_Some in Hw.
    exists (ds :: dss). split; [constructor; [exact Hds|exact Hdss]|].
    cbn [concat]. apply Forall2_app; [|exact Hrec].
    eapply Forall2_impl; [exact Hw|]. intros d r'. apply dayOf_record.
Qed.

(** X5: what [doFetch] returns, for a window of valid [Date]s.  A
    response with [errors] fails as a GraphQL error even when it also holds
    data.  When [doFetch] returns, the response has a calendar whose weeks all
    have their days and whose days all have their date, and the records are
    these days in order, one record per day, each with the day's count and
    its date cut to 10 characters.  One week without days makes the whole
    fetch fail, whatever the other weeks hold. *)
Theorem doFetch_outcome (e : env) (now : Z) (remote : request -> response) (login : string) :
  validTime (fromDate e now) = true ->
  validTime (toDate now) = true ->
  (forall errs cal, remote (mkRequest e now login) = Json (Some errs) cal ->
     doFetch e now remote login = inl (GraphQLError login errs))
  /\ (forall days, doFetch e now remote login = inr days ->
        exists ws dss,
          remote (mkRequest e now login) = Json None (Some ws)
          /\ Forall2 (fun w ds => contributionDays w = Some ds) (default [] ws) dss
          /\ Forall2 (fun d r => exists s, cd_date d = Some s
                                           /\ date r = JS.slice0 10 s
                                           /\ count r = contributionCount d)
               (concat dss) days)
  /\ (forall ws w, remote (mkRequest e now login) = Json None (Some ws) ->
        w ∈ default [] ws -> contributionDays w = None ->
        doFetch e now remote login = inl TypeError).
Proof.
  intros _ _. rewrite doFetch_cases.
  destruct (remote (mkRequest e now login)) as [msg|[errs|] [ws|]].
  - split; [discriminate|]. split; discriminate.
  - split; [intros errs' cal [= -> _]; reflexivity|]. split; discriminate.
  - split; [intros errs' cal [= -> _]; reflexivity|]. split; discriminate.
  - split; [discriminate|]. split.
    + intros days. destruct (mapM weekDays (default [] ws)) as [l|] eqn:Hm; [|discriminate].
      intros [= <-]. apply mapM_Some in Hm.
      destruct (weeks_records _ _ Hm) as (dss & Hdss & Hrec).
      exists ws, dss. auto.
    + intros ws' w [= <-] Hw Hnone.
      destruct (mapM weekDays (default [] ws)) as [l|] eqn:Hm; [|reflexivity].
      exfalso. apply mapM_Some in Hm.
      apply list_elem_of_lookup in Hw as [i Hi].
      destruct (Forall2_lookup_l _ _ _ _ _ Hm Hi) as (r & _ & Hr).
      unfold weekDays in Hr. rewrite Hnone in Hr. discriminate.
  - split; [discriminate|]. split; discriminate.
Qed.

Lemma doFetch_outcome_witness :
  validTime (fromDate (Sample.envOf "A,B" 10) Sample.wednesday) = true
  /\ validTime (toDate Sample.wednesday) = true
  /\ doFetch (Sample.envOf "A,B" 10) Sample.wednesday Sample.remoteAB "nobody"
     = inl (GraphQLError "nobody" "[{message:NOT_FOUND}]").
Proof.
  assert (validTime (fromDate (Sample.envOf "A,B" 10) Sample.wednesday) = true) as Hf
    by (vm_compute; reflexivity).
  assert (validTime (toDate Sample.wednesday) = true) as Ht by (vm_compute; reflexivity).
  split; [exact Hf|]. split; [exact Ht|].
  destruct (doFetch_outcome (Sample.envOf "A,B" 10) Sample.wednesday Sample.remoteAB
              "nobody" Hf Ht) as (Herr & _).
  apply (Herr _ None). vm_compute. reflexivity.
Defined.

Lemma mapM_dayOf_short ds l :
  mapM dayOf ds = Some l -> Forall (fun d => (String.length (date d) <= 10)%nat) l.
Proof.
  intros H%mapM_Some. induction H as [|d r ds l Hd _ IH]; constructor; [|exact IH].
  unfold dayOf in Hd. destruct (cd_date d) as [s|]; [|discriminate].
  injection Hd as <-. apply slice0_length.
Qed.

Lemma doFetch_short (e : env) (now : Z) (remote : request -> response) login days :
  doFetch e now remote login = inr days ->
  Forall (fun d => (String.length (date d) <= 10)%nat) days.
Proof.
  rewrite doFetch_cases.
  destruct (remote (mkRequest e now login)) as [msg|[errs|] [ws|]]; try discriminate.
  destruct (mapM weekDays (default [] ws)) as [dss|] eqn:Hm; [|discriminate].
  intros [= <-]. apply mapM_Some in Hm. apply Forall_concat.
  induction Hm as [|w l ws' dss' Hw _ IH]; constructor; [|exact IH].
  unfold weekDays in Hw. destruct (contributionDays w) as [ds|]; [|discriminate].
  apply (mapM_dayOf_short ds), Hw.
Qed.

(** ** More on aggregation *)

Section TotalFacts.

Lemma total_empty : total ∅ = 0%N.
Proof. apply map_fold_empty. Qed.

Lemma total_insert_fresh (m : gmap string N) k v :
  m !! k = None -> total (<[k:=v]> m) = (v + total m)%N.
Proof.
  intros Hk. unfold total. apply map_fold_insert_L; [|exact Hk].
  intros. lia.
Qed.

Lemma total_insert (m : gmap string N) k v :
  (total (<[k:=v]> m) + getCount m k = total m + v)%N.
Proof.
  unfold getCount. destruct (m !! k) as [old|] eqn:Hk; cbn [default from_option id].
  - assert (total (<[k:=v]> m) = v + total (delete k m))%N as ->.
    { rewrite <- insert_delete_eq. apply total_insert_fresh, lookup_delete_eq. }
    assert (total m = old + total (delete k m))%N as ->.
    { rewrite <- (insert_delete_id m k old Hk) at 1.
      apply total_insert_fresh, lookup_delete_eq. }
    lia.
  - rewrite total_insert_fresh by exact Hk. lia.
Qed.

Lemma total_addDay m d : total (addDay m d) = (total m + count d)%N.
Proof.
  unfold addDay.
  pose proof (total_insert m (date d) (getCount m (date d) + count d)%N). lia.
Qed.

Lemma total_addDays days : forall m,
  total (addDays m days) = (total m + sumAll days)%N.
Proof.
  induction days as [|d ds IH]; intros m; cbn [addDays fold_left sumAll fold_right].
  - lia.
  - fold (addDays (addDay m d) ds). fold (sumAll ds).
    rewrite IH, total_addDay. lia.
Qed.
End TotalFacts.

Lemma returned_app fetch us us' :
  returned fetch (us ++ us') = returned fetch us ++ returned fetch us'.
Proof. unfold returned. apply omap_app. Qed.

Lemma sumFor_app k l l' : sumFor k (l ++ l') = (sumFor k l + sumFor k l')%N.
Proof.
  induction l as [|d l IH]; cbn [app sumFor]; [reflexivity|]. rewrite IH. lia.
Qed.

Lemma elem_of_concat {A} (x : A) (ls : list (list A)) :
  x ∈ concat ls -> exists l, l ∈ ls /\ x ∈ l.
Proof.
  induction ls as [|l ls IH]; cbn [concat]; [intros H; inversion H|].
  intros [H|H]%elem_of_app.
  - exists l. split; [left|exact H].
  - destruct (IH H) as (l' & Hl' & Hx). exists l'. split; [right; exact Hl'|exact Hx].
Qed.

(** X7: as long as the counts stay within the limit of exact sums and
    no date is a name that the object inherits, the values of the aggregated
    mapping add up to the sum of all counts of all records that the fetches
    returned. *)
Theorem aggregated_total
    (fetch : string -> fetchError + list day) (users : list string) (c : list event) :
  countsFit (concat (returned fetch users)) = true ->
  keysPlain (concat (returned fetch users)) = true ->
  total (aggregated (fetchAll fetch users
                       {| aggregated := ∅; exitCode := 0; console := c |}))
  = sumAll (concat (returned fetch users))
  /\ (total (aggregated (fetchAll fetch users
                           {| aggregated := ∅; exitCode := 0; console := c |}))
      < maxTotal)%N.
Proof.
  intros Hfit%countsFit_bound _.
  assert (total (aggregated (fetchAll fetch users
                               {| aggregated := ∅; exitCode := 0; console := c |}))
          = sumAll (concat (returned fetch users))) as H.
  { rewrite aggregated_fetchAll, absorb_returned, addDays_concat, total_addDays.
    cbn [aggregated]. rewrite total_empty. reflexivity. }
  split; [exact H|]. rewrite H. exact Hfit.
Qed.

Lemma aggregated_total_witness :
  countsFit (concat (returned (doFetch Sample.noEnv Sample.wednesday Sample.remoteAB)
                       ["A"; "B"]%string)) = true
  /\ keysPlain (concat (returned (doFetch Sample.noEnv Sample.wednesday Sample.remoteAB)
                          ["A"; "B"]%string)) = true
  /\ total (aggregated (fetchAll (doFetch Sample.noEnv Sample.wednesday Sample.remoteAB)
                          ["A"; "B"]%string
                          {| aggregated := ∅; exitCode := 0; console := [] |}))
     = 6%N.
Proof.
  assert (countsFit (concat (returned (doFetch Sample.noEnv Sample.wednesday
                                         Sample.remoteAB) ["A"; "B"]%string)) = true)
    as Hfit by (vm_compute; reflexivity).
  assert (keysPlain (concat (returned (doFetch Sample.noEnv Sample.wednesday
                                         Sample.remoteAB) ["A"; "B"]%string)) = true)
    as Hplain by (vm_compute; reflexivity).
  split; [exact Hfit|]. split; [exact Hplain|].
  rewrite (proj1 (aggregated_total (doFetch Sample.noEnv Sample.wednesday Sample.remoteAB)
                    ["A"; "B"]%string [] Hfit Hplain)).
  vm_compute. reflexivity.
Defined.

(** X8: aggregation is additive over the account list.  As long as the
    counts stay within the limit of exact sums and no date is a name that the
    object inherits, the count of a date for the accounts [us ++ us'] is the
    sum of the counts for [us] and for [us']; an account listed twice counts
    twice. *)
Theorem aggregation_additive
    (fetch : string -> fetchError + list day) (us us' : list string)
    (c : list event) (k : string) :
  countsFit (concat (returned fetch (us ++ us'))) = true ->
  countsFit (concat (returned fetch (us ++ us))) = true ->
  keysPlain (concat (returned fetch (us ++ us'))) = true ->
  let agg := fun l =>
    aggregated (fetchAll fetch l {| aggregated := ∅; exitCode := 0; console := c |}) in
  getCount (agg (us ++ us')) k = (getCount (agg us) k + getCount (agg us') k)%N
  /\ getCount (agg (us ++ us)) k = (2 * getCount (agg us) k)%N.
Proof.
  intros _ _ _ agg. subst agg. cbv beta.
  assert (forall l, getCount (aggregated (fetchAll fetch l
            {| aggregated := ∅; exitCode := 0; console := c |})) k
          = sumFor k (concat (returned fetch l))) as H.
  { intros l. rewrite aggregated_fetchAll, absorb_returned, addDays_concat.
    rewrite getCount_addDays. reflexivity. }
  rewrite !H, !returned_app, !concat_app, !sumFor_app. split; lia.
Qed.

Lemma aggregation_additive_witness :
  countsFit (concat (returned (doFetch Sample.noEnv Sample.wednesday Sample.remoteAB)
                       (["A"%string] ++ ["B"%string]))) = true
  /\ countsFit (concat (returned (doFetch Sample.noEnv Sample.wednesday Sample.remoteAB)
                          (["A"%string] ++ ["A"%string]))) = true
  /\ keysPlain (concat (returned (doFetch Sample.noEnv Sample.wednesday Sample.remoteAB)
                          (["A"%string] ++ ["B"%string]))) = true
  /\ getCount (aggregated (fetchAll (doFetch Sample.noEnv Sample.wednesday
                                      Sample.remoteAB)
                             (["A"%string] ++ ["A"%string])
                             {| aggregated := ∅; exitCode := 0; console := [] |}))
       "2024-01-01"
     = 6%N.
Proof.
  assert (countsFit (concat (returned (doFetch Sample.noEnv Sample.wednesday
                                         Sample.remoteAB) (["A"%string] ++ ["B"%string])))
          = true) as H1 by (vm_compute; reflexivity).
  assert (countsFit (concat (returned (doFetch Sample.noEnv Sample.wednesday
                                         Sample.remoteAB) (["A"%string] ++ ["A"%string])))
          = true) as H2 by (vm_compute; reflexivity).
  assert (keysPlain (concat (returned (doFetch Sample.noEnv Sample.wednesday
                                         Sample.remoteAB) (["A"%string] ++ ["B"%string])))
          = true) as H3 by (vm_compute; reflexivity).
  split; [exact H1|]. split; [exact H2|]. split; [exact H3|].
  rewrite (proj2 (aggregation_additive
                    (doFetch Sample.noEnv Sample.wednesday Sample.remoteAB)
                    ["A"]%string ["B"]%string [] "2024-01-01" H1 H2 H3)).
  vm_compute. reflexivity.
Defined.

(** X9: accounts whose fetch fails leave the mapping as it is: the
    result is that of the run over the accounts whose fetch returns. *)
Theorem failed_accounts_skipped
    (fetch : string -> fetchError + list day) (users : list string) (p : proc) :
  aggregated (fetchAll fetch users p)
  = aggregated (fetchAll fetch (List.filter (fun u => negb (failed (fetch u))) users) p).
Proof.
  rewrite !aggregated_fetchAll, !absorb_returned, returned_filter. reflexivity.
Qed.

(** X6: the keys of the aggregated mapping.  A key has at most 10
    characters and is the date of a record that the fetch of a configured
    account returned. *)
Theorem aggregated_keys (e : env) (now : Z) (w : world) (k : string) :
  is_Some (aggregated (fetched e now w) !! k) ->
  (String.length k <= 10)%nat
  /\ exists u days d,
       u ∈ USERNAMES e /\ doFetch e now (remote w) u = inr days
       /\ d ∈ days /\ date d = k.
Proof.
  intros Hk.
  assert (exists u days d, u ∈ USERNAMES e /\ doFetch e now (remote w) u = inr days
            /\ d ∈ days /\ date d = k) as (u & days & d & Hu & Hf & Hd & Hdk).
  { revert Hk. unfold fetched.
    rewrite aggregated_fetchAll, absorb_returned, addDays_concat. cbn [aggregated].
    intros Hk.
    destruct (decide (Forall (fun d => date d <> k)
                        (concat (returned (doFetch e now (remote w)) (USERNAMES e)))))
      as [Hall|Hex].
    - exfalso. destruct Hk as [v Hv].
      assert (addDays ∅ (concat (returned (doFetch e now (remote w)) (USERNAMES e)))
                !! k = None) as Hnone
        by (apply lookup_addDays_None; split; [apply lookup_empty|exact Hall]).
      rewrite Hnone in Hv. discriminate.
    - apply not_Forall_Exists in Hex; [|intros d; apply _].
      apply Exists_exists in Hex as (d & Hd & Hdk).
      apply elem_of_concat in Hd as (days & Hdays & Hd).
      unfold returned in Hdays. apply list_elem_of_omap in Hdays as (u & Hu & Hfu).
      exists u, days, d.
      destruct (doFetch e now (remote w) u) as [err|days'] eqn:Hf; [discriminate|].
      injection Hfu as ->. destruct (decide (date d = k)) as [Heq|Hne];
        [auto|contradiction (Hdk Hne)]. }
  split; [|exists u, days, d; auto].
  pose proof (doFetch_short _ _ _ _ _ Hf) as Hs.
  rewrite Forall_forall in Hs. rewrite <- Hdk. apply Hs, Hd.
Qed.

Lemma aggregated_keys_witness :
  is_Some (aggregated (fetched (Sample.envOf "A,B" 10) Sample.wednesday
                         (Sample.node18 Sample.remoteAB)) !! "2024-01-02"%string)
  /\ (String.length "2024-01-02" <= 10)%nat.
Proof.
  assert (is_Some (aggregated (fetched (Sample.envOf "A,B" 10) Sample.wednesday
                                 (Sample.node18 Sample.remoteAB))
                     !! "2024-01-02"%string)) as H
    by (exists 1%N; vm_compute; reflexivity).
  split; [exact H|].
  exact (proj1 (aggregated_keys _ _ _ _ H)).
Defined.


(** ** More on the run *)

Lemma failuresOf_app c c' : failuresOf (c ++ c') = failuresOf c ++ failuresOf c'.
Proof. unfold failuresOf. apply omap_app. Qed.

Lemma failuresOf_fetchAll (fetch : string -> fetchError + list day) users : forall p,
  failuresOf (console (fetchAll fetch users p))
  = failuresOf (console p) ++ failuresIn fetch users.
Proof.
  induction users as [|u us IH]; intros p; cbn [fetchAll fold_left].
  - unfold failuresIn. cbn. rewrite app_nil_r. reflexivity.
  - fold (fetchAll fetch us (fetchStep fetch p u)). rewrite IH.
    unfold failuresIn at 2. cbn [omap list_omap]. fold (failuresIn fetch us).
    unfold fetchStep. destruct (fetch u) as [err|days]; cbn [console];
      rewrite !failuresOf_app; cbn; rewrite ?app_nil_r, <- ?app_assoc; reflexivity.
Qed.

Lemma failuresOf_warnings e : failuresOf (warnings e) = [].
Proof. unfold warnings. destruct (TOKEN e); reflexivity. Qed.

Lemma existsb_failed_false (fetch : string -> fetchError + list day) users :
  existsb (fun u => failed (fetch u)) users = false
  <-> Forall (fun u => failed (fetch u) = false) users.
Proof.
  induction users as [|u us IH]; cbn [existsb].
  - split; [constructor|reflexivity].
  - rewrite Forall_cons, <- IH, orb_false_iff. reflexivity.
Qed.

(** X10: the exit status and the file, in a run within the limits of
    the engine.  The status is 0, 1 or 2; it is 0 exactly when [fetch] exists,
    the file is written and the fetch of every account returned; the file is
    written exactly when [fetch] exists and the write succeeds; without [fetch]
    no account is fetched, and with it every account is, also when the write
    fails afterwards. *)
Theorem exit_status_cases (e : env) (now : Z) (w : world) :
  withinLimits e now w = true ->
  (status (main e now w) = 0 \/ status (main e now w) = 1 \/ status (main e now w) = 2)
  /\ (status (main e now w) = 0 <->
        hasFetch w = true /\ writable w = true
        /\ Forall (fun u => failed (doFetch e now (remote w) u) = false) (USERNAMES e))
  /\ (is_Some (file (main e now w)) <-> hasFetch w = true /\ writable w = true)
  /\ fetchesOf (output (main e now w)) = (if hasFetch w then USERNAMES e else []).
Proof.
  intros _.
  unfold main. destruct (hasFetch w), (writable w); cbn [negb status file output].
  - rewrite exitCode_fetched, fetchesOf_app, fetchesOf_fetched.
    pose proof (existsb_failed_false (doFetch e now (remote w)) (USERNAMES e)) as Hex.
    destruct (existsb _ (USERNAMES e)).
    + split; [auto|]. split; [|split; [split; eauto|apply app_nil_r]].
      split; [discriminate|]. intros (_ & _ & H). apply Hex in H. discriminate.
    + split; [auto|]. split; [|split; [split; eauto|apply app_nil_r]].
      split; [intros _; repeat split; apply Hex; reflexivity|reflexivity].
  - rewrite fetchesOf_fetched.
    split; [auto|]. split; [split; [discriminate|intros (_ & H & _); discriminate]|].
    split; [|reflexivity].
    split; [intros [? H]; discriminate|intros [_ H]; discriminate].
  - rewrite fetchesOf_app, fetchesOf_warnings.
    split; [auto|]. split; [split; [discriminate|intros (H & _); discriminate]|].
    split; [|reflexivity].
    split; [intros [? H]; discriminate|intros [H _]; discriminate].
  - rewrite fetchesOf_app, fetchesOf_warnings.
    split; [auto|]. split; [split; [discriminate|intros (H & _); discriminate]|].
    split; [|reflexivity].
    split; [intros [? H]; discriminate|intros [H _]; discriminate].
Qed.

Lemma exit_status_cases_witness :
  withinLimits (Sample.envOf "A,B" 10) Sample.wednesday (Sample.node18 Sample.remoteAB)
  = true
  /\ status (main (Sample.envOf "A,B" 10) Sample.wednesday
               (Sample.node18 Sample.remoteAB)) = 0
  /\ is_Some (file (main (Sample.envOf "A,B" 10) Sample.wednesday
                      (Sample.node18 Sample.remoteAB))).
Proof.
  assert (withinLimits (Sample.envOf "A,B" 10) Sample.wednesday
            (Sample.node18 Sample.remoteAB) = true) as Hl by (vm_compute; reflexivity).
  split; [exact Hl|].
  destruct (exit_status_cases (Sample.envOf "A,B" 10) Sample.wednesday
              (Sample.node18 Sample.remoteAB) Hl) as (_ & Hzero & Hfile & _).
  split.
  - apply Hzero. split; [reflexivity|]. split; [reflexivity|].
    vm_compute. repeat constructor.
  - apply Hfile. split; reflexivity.
Defined.

(** X11: with valid [Date]s the console lists the failed accounts, each
    with its error, in fetch order, and nothing else as a failure. *)
Theorem failures_reported (e : env) (now : Z) (w : world) :
  hasFetch w = true ->
  datesValid e now = true ->
  failuresOf (output (main e now w))
  = failuresIn (doFetch e now (remote w)) (USERNAMES e).
Proof.
  intros Hf _. unfold main. rewrite Hf. cbn [negb].
  assert (failuresOf (console (fetched e now w))
          = failuresIn (doFetch e now (remote w)) (USERNAMES e)) as H.
  { unfold fetched. rewrite failuresOf_fetchAll. cbn [console].
    rewrite failuresOf_warnings. reflexivity. }
  destruct (writable w); cbn [output]; [rewrite failuresOf_app|]; rewrite H;
    [apply app_nil_r|reflexivity].
Qed.

Lemma failures_reported_witness :
  hasFetch (Sample.node18 Sample.remoteAB) = true
  /\ datesValid (Sample.envOf "A, nobody ,B" 10) Sample.wednesday = true
  /\ failuresOf (output (main (Sample.envOf "A, nobody ,B" 10) Sample.wednesday
                           (Sample.node18 Sample.remoteAB)))
     = [("nobody"%string, GraphQLError "nobody" "[{message:NOT_FOUND}]")].
Proof.
  assert (datesValid (Sample.envOf "A, nobody ,B" 10) Sample.wednesday = true) as Hv
    by (vm_compute; reflexivity).
  split; [reflexivity|]. split; [exact Hv|].
  rewrite (failures_reported (Sample.envOf "A, nobody ,B" 10) Sample.wednesday
             (Sample.node18 Sample.remoteAB) eq_refl Hv).
  vm_compute. reflexivity.
Defined.

(** X12: with valid [Date]s and counts within the limit of exact sums,
    the count of a cell is the sum of the counts that the returned records
    report for the cell's ISO date, and is within the limit. *)
Theorem cell_counts_sum (e : env) (now : Z) (w : world) :
  datesValid e now = true ->
  countsFit (concat (returned (doFetch e now (remote w)) (USERNAMES e))) = true ->
  e_count <$> grid e now w
  = (fun en => sumFor (iso en)
                 (concat (returned (doFetch e now (remote w)) (USERNAMES e))))
      <$> grid e now w
  /\ Forall (fun en => (e_count en < maxTotal)%N) (grid e now w).
Proof.
  intros _ Hfit%countsFit_bound. split.
  - unfold grid, dates. rewrite <- !list_fmap_compose. apply list_fmap_ext.
    intros i z _. cbn [compose mkEntry e_count iso]. apply aggregated_fetched.
  - apply Forall_forall. intros en Hen.
    pose proof (cell_count_le e now w en Hen). lia.
Qed.

Lemma cell_counts_sum_witness :
  datesValid (Sample.envOf "A,B" 10) Sample.wednesday = true
  /\ countsFit (concat (returned (doFetch (Sample.envOf "A,B" 10) Sample.wednesday
                                    (remote (Sample.node18 Sample.remoteAB)))
                          (USERNAMES (Sample.envOf "A,B" 10)))) = true
  /\ Forall (fun en => (e_count en < maxTotal)%N)
       (grid (Sample.envOf "A,B" 10) Sample.wednesday (Sample.node18 Sample.remoteAB)).
Proof.
  assert (datesValid (Sample.envOf "A,B" 10) Sample.wednesday = true) as Hv
    by (vm_compute; reflexivity).
  assert (countsFit (concat (returned (doFetch (Sample.envOf "A,B" 10) Sample.wednesday
                                         (remote (Sample.node18 Sample.remoteAB)))
                               (USERNAMES (Sample.envOf "A,B" 10)))) = true) as Hc
    by (vm_compute; reflexivity).
  split; [exact Hv|]. split; [exact Hc|].
  exact (proj2 (cell_counts_sum (Sample.envOf "A,B" 10) Sample.wednesday
                  (Sample.node18 Sample.remoteAB) Hv Hc)).
Defined.

(** ** More on the grid *)

Lemma entry_iso from agg i :
  iso (mkEntry from agg i)
  = JS.slice0 10 (JSDate.toISOString (start from + i * oneDay)).
Proof. unfold mkEntry. cbn [iso]. reflexivity. Qed.

Section GridOrder.
Variable e : env.
Variable now : Z.

Lemma grid_totalDays :
  totalDays (fromDate e now) (toDate now) = 7 * gridWeeks e now.
Proof.
  unfold gridWeeks.
  rewrite (weeks_eq _ _ _ (window_span e now)).
  apply totalDays_eq, window_span.
Qed.

Lemma grid_end :
  end_ (toDate now)
  = start (fromDate e now)
    + (totalDays (fromDate e now) (toDate now) - 1) * oneDay.
Proof.
  pose proof (window_span e now) as Hspan.
  set (from := fromDate e now) in *. set (to := toDate now) in *.
  rewrite (totalDays_eq from to _ Hspan), (end_eq to), (start_eq from).
  assert (JSDate.getUTCDay to = (JSDate.getUTCDay from + (DAYS e - 1)) mod 7) as ->.
  { rewrite Hspan, oneDay_eq. apply getUTCDay_shift. }
  pose proof (Z.div_mod (JSDate.getUTCDay from + (DAYS e - 1)) 7).
  rewrite Hspan. unfold oneDay. lia.
Qed.

Lemma fromDate_midnight : JSDate.TimeWithinDay (fromDate e now) = 0.
Proof.
  rewrite fromDate_eq, today_eq, oneDay_eq.
  replace (JSDate.Day now * JSDate.msPerDay - (DAYS e - 1) * JSDate.msPerDay)
    with ((JSDate.Day now - (DAYS e - 1)) * JSDate.msPerDay) by lia.
  unfold JSDate.TimeWithinDay. apply Z.mod_mul. discriminate.
Qed.

Lemma start_midnight : JSDate.TimeWithinDay (start (fromDate e now)) = 0.
Proof.
  rewrite (start_eq (fromDate e now)).
  replace (fromDate e now - JSDate.getUTCDay (fromDate e now) * oneDay)
    with (fromDate e now + (- JSDate.getUTCDay (fromDate e now)) * JSDate.msPerDay)
    by (rewrite oneDay_eq; lia).
  rewrite TimeWithinDay_shift. apply fromDate_midnight.
Qed.
End GridOrder.

(** X13: the dates of the cells.  Every cell is a UTC midnight between
    [start] and [end_]; two cells are as many days apart as their indices, so
    the dates increase strictly along the grid. *)
Theorem grid_dates_in_order (e : env) (now : Z) (w : world) (i : nat) (a : entry) :
  grid e now w !! i = Some a ->
  start (fromDate e now) <= e_date a <= end_ (toDate now)
  /\ JSDate.TimeWithinDay (e_date a) = 0
  /\ (forall (j : nat) b, grid e now w !! j = Some b ->
        e_date b - e_date a = (Z.of_nat j - Z.of_nat i) * oneDay)
  /\ (forall (j : nat) b, grid e now w !! j = Some b -> (i < j)%nat -> e_date a < e_date b).
Proof.
  unfold grid. generalize (aggregated (fetched e now w)); intros agg.
  pose proof (grid_end e now) as Hend. pose proof (start_midnight e now) as Hmid.
  set (from := fromDate e now) in *. set (to := toDate now) in *.
  intros Ha.
  assert (Z.of_nat i < totalDays from to) as Hi.
  { pose proof (lookup_lt_Some _ _ _ Ha) as Hlt. rewrite length_dates in Hlt. lia. }
  rewrite (lookup_dates _ _ _ _ _ Ha), entry_date.
  assert (forall (j : nat) b,
            dates from to agg !! j = Some b ->
            e_date b = start from + Z.of_nat j * oneDay) as Hdate.
  { intros j b Hb. rewrite (lookup_dates _ _ _ _ _ Hb). apply entry_date. }
  split; [rewrite Hend; unfold oneDay; lia|].
  split.
  { rewrite oneDay_eq, TimeWithinDay_shift. exact Hmid. }
  split.
  - intros j b Hb. rewrite (Hdate j b Hb). lia.
  - intros j b Hb Hij. rewrite (Hdate j b Hb). unfold oneDay. lia.
Qed.

Lemma grid_dates_in_order_witness :
  grid (Sample.envOf "A,B" 10) Sample.wednesday (Sample.node18 Sample.remoteAB) !! 8%nat
  = Some {| e_date := 1704067200000; iso := "2024-01-01"; e_count := 5 |}
  /\ start (fromDate (Sample.envOf "A,B" 10) Sample.wednesday) <= 1704067200000
     <= end_ (toDate Sample.wednesday).
Proof.
  assert (grid (Sample.envOf "A,B" 10) Sample.wednesday (Sample.node18 Sample.remoteAB)
            !! 8%nat
          = Some {| e_date := 1704067200000; iso := "2024-01-01"; e_count := 5 |}) as H
    by (vm_compute; reflexivity).
  split; [exact H|].
  exact (proj1 (grid_dates_in_order _ _ _ _ _ H)).
Defined.

(** X14: with valid [Date]s every day of the window has its cell: day
    [j] of the window is the cell at index [getUTCDay(from) + j]. *)
Theorem window_days_have_cells (e : env) (now : Z) (w : world) (j : Z) :
  datesValid e now = true ->
  0 <= j < DAYS e ->
  e_date <$> grid e now w !! Z.to_nat (JSDate.getUTCDay (fromDate e now) + j)
  = Some (fromDate e now + j * oneDay).
Proof.
  intros _ Hj. unfold grid.
  pose proof (window_span e now) as Hspan.
  generalize (aggregated (fetched e now w)); intros agg.
  set (from := fromDate e now) in *. set (to := toDate now) in *.
  pose proof (getUTCDay_range from) as Hwd.
  pose proof (totalDays_eq from to _ Hspan) as Htot.
  pose proof (Z.div_mod (JSDate.getUTCDay from + (DAYS e - 1)) 7) as Hdm.
  pose proof (Z.mod_pos_bound (JSDate.getUTCDay from + (DAYS e - 1)) 7) as Hm.
  rewrite lookup_dates_lt by lia. cbn [fmap option_fmap option_map].
  rewrite entry_date, (start_eq from). f_equal. unfold oneDay. lia.
Qed.

Lemma window_days_have_cells_witness :
  datesValid (Sample.envOf "A,B" 10) Sample.wednesday = true
  /\ 0 <= 9 < DAYS (Sample.envOf "A,B" 10)
  /\ e_date <$> grid (Sample.envOf "A,B" 10) Sample.wednesday
                  (Sample.node18 Sample.remoteAB)
                !! Z.to_nat (JSDate.getUTCDay (fromDate (Sample.envOf "A,B" 10)
                                                Sample.wednesday) + 9)
     = Some (fromDate (Sample.envOf "A,B" 10) Sample.wednesday + 9 * oneDay).
Proof.
  assert (datesValid (Sample.envOf "A,B" 10) Sample.wednesday = true) as Hv
    by (vm_compute; reflexivity).
  assert (0 <= 9 < DAYS (Sample.envOf "A,B" 10)) as H
    by (vm_compute; split; [discriminate|reflexivity]).
  split; [exact Hv|]. split; [exact H|].
  exact (window_days_have_cells (Sample.envOf "A,B" 10) Sample.wednesday
           (Sample.node18 Sample.remoteAB) 9 Hv H).
Defined.

(** X15: the cells around the window.  For a window of at least one day
    and valid [Date]s the grid has [getUTCDay(from)] cells before the window
    and [6 - getUTCDay(to)] after it: between [D] and [D + 12] cells. *)
Theorem grid_padding (e : env) (now : Z) (w : world) :
  1 <= DAYS e ->
  datesValid e now = true ->
  Z.of_nat (List.length (grid e now w))
  = JSDate.getUTCDay (fromDate e now) + DAYS e + (6 - JSDate.getUTCDay (toDate now))
  /\ DAYS e <= Z.of_nat (List.length (grid e now w)) <= DAYS e + 12.
Proof.
  intros HD _. unfold grid. rewrite length_dates.
  pose proof (window_span e now) as Hspan.
  set (from := fromDate e now) in *. set (to := toDate now) in *.
  pose proof (getUTCDay_range from) as Hwf.
  pose proof (getUTCDay_range to) as Hwt.
  rewrite (totalDays_eq from to _ Hspan).
  assert (JSDate.getUTCDay to = (JSDate.getUTCDay from + (DAYS e - 1)) mod 7) as Hwd.
  { rewrite Hspan, oneDay_eq. apply getUTCDay_shift. }
  pose proof (Z.div_mod (JSDate.getUTCDay from + (DAYS e - 1)) 7) as Hdm.
  assert (0 <= (JSDate.getUTCDay from + (DAYS e - 1)) / 7)
    by (apply Z.div_pos; lia).
  lia.
Qed.

Lemma grid_padding_witness :
  1 <= DAYS (Sample.envOf "A,B" 10)
  /\ datesValid (Sample.envOf "A,B" 10) Sample.wednesday = true
  /\ Z.of_nat (List.length (grid (Sample.envOf "A,B" 10) Sample.wednesday
                              (Sample.node18 Sample.remoteAB)))
     = JSDate.getUTCDay (fromDate (Sample.envOf "A,B" 10) Sample.wednesday)
       + DAYS (Sample.envOf "A,B" 10)
       + (6 - JSDate.getUTCDay (toDate Sample.wednesday)).
Proof.
  assert (1 <= DAYS (Sample.envOf "A,B" 10)) as H by (vm_compute; discriminate).
  assert (datesValid (Sample.envOf "A,B" 10) Sample.wednesday = true) as Hv
    by (vm_compute; reflexivity).
  split; [exact H|]. split; [exact Hv|].
  exact (proj1 (grid_padding (Sample.envOf "A,B" 10) Sample.wednesday
                  (Sample.node18 Sample.remoteAB) H Hv)).
Defined.

(** X16: a window that ends well before it starts.  For [DAYS <= -6]
    and valid [Date]s the grid has no cell and the number of weeks is not
    positive; the file is still written, and holds the header and the closing
    tag only. *)
Theorem empty_window (e : env) (now : Z) (w : world) :
  DAYS e <= -6 ->
  datesValid e now = true ->
  grid e now w = []
  /\ gridWeeks e now <= 0
  /\ svg e now w
     = svgHeader (CELL_SIZE e) (GAP e) (gridWeeks e now) +:+ "</svg>" +:+ JS.nl
  /\ (hasFetch w = true -> writable w = true -> file (main e now w) = Some (svg e now w)).
Proof.
  intros HD _.
  assert (gridWeeks e now <= 0) as Hweeks.
  { unfold gridWeeks. rewrite (weeks_eq _ _ _ (window_span e now)).
    pose proof (getUTCDay_range (fromDate e now)) as Hwd.
    generalize dependent (JSDate.getUTCDay (fromDate e now)). intros d Hd.
    assert ((d + (DAYS e - 1)) / 7 < 0) by (apply Z.div_lt_upper_bound; lia). lia. }
  assert (grid e now w = []) as Hgrid.
  { unfold grid, dates. rewrite grid_totalDays, seqZ_nil by lia. reflexivity. }
  split; [exact Hgrid|]. split; [exact Hweeks|]. split.
  - unfold svg. rewrite Hgrid. reflexivity.
  - intros Hf Hw. rewrite (main_ok e now w Hf Hw). reflexivity.
Qed.

Lemma empty_window_witness :
  DAYS (Sample.envOf "A,B" (-6)) <= -6
  /\ datesValid (Sample.envOf "A,B" (-6)) Sample.wednesday = true
  /\ grid (Sample.envOf "A,B" (-6)) Sample.wednesday (Sample.node18 Sample.remoteAB) = [].
Proof.
  assert (DAYS (Sample.envOf "A,B" (-6)) <= -6) as H by (vm_compute; discriminate).
  assert (datesValid (Sample.envOf "A,B" (-6)) Sample.wednesday = true) as Hv
    by (vm_compute; reflexivity).
  split; [exact H|]. split; [exact Hv|].
  exact (proj1 (empty_window (Sample.envOf "A,B" (-6)) Sample.wednesday
                  (Sample.node18 Sample.remoteAB) H Hv)).
Defined.

(** X17: the shape of the grid does not depend on what was fetched:
    the dates and keys of the cells, and the week, weekday and position of
    their rectangles, are the same in any two worlds. *)
Theorem grid_shape_independent (e : env) (now : Z) (w w' : world) :
  (fun en => (e_date en, iso en)) <$> grid e now w
  = (fun en => (e_date en, iso en)) <$> grid e now w'
  /\ (fun r => (weekIndex r, weekday r, x r, y r))
       <$> rects (CELL_SIZE e) (GAP e) (maxCount (grid e now w)) (grid e now w)
     = (fun r => (weekIndex r, weekday r, x r, y r))
         <$> rects (CELL_SIZE e) (GAP e) (maxCount (grid e now w')) (grid e now w').
Proof.
  unfold grid.
  generalize (aggregated (fetched e now w)) (aggregated (fetched e now w')).
  intros agg agg'.
  generalize (maxCount (dates (fromDate e now) (toDate now) agg))
             (maxCount (dates (fromDate e now) (toDate now) agg')).
  intros m m'. unfold rects, dates.
  generalize (seqZ 0 (totalDays (fromDate e now) (toDate now))); intros l.
  split.
  - rewrite <- !list_fmap_compose. apply list_fmap_ext. intros i z _.
    unfold compose. rewrite !entry_date, !entry_iso. reflexivity.
  - apply list_eq. intros i.
    rewrite !list_lookup_fmap, !list_lookup_imap, !list_lookup_fmap.
    destruct (l !! i) as [z|]; [|reflexivity].
    cbn [fmap option_fmap option_map]. unfold mkRect. cbn [weekIndex weekday x y].
    rewrite !entry_date. reflexivity.
Qed.

(** ** More on colours and layout *)

Lemma maxCount_cons en ds : maxCount (en :: ds) = N.max (e_count en) (maxCount ds).
Proof. reflexivity. Qed.

Lemma maxCount_upper ds en : en ∈ ds -> (e_count en <= maxCount ds)%N.
Proof.
  induction 1 as [en ds|en' en ds _ IH]; rewrite maxCount_cons; lia.
Qed.

Lemma maxCount_attained ds :
  maxCount ds = 0%N \/ exists i en, ds !! i = Some en /\ e_count en = maxCount ds.
Proof.
  induction ds as [|a ds IH]; [left; reflexivity|]. rewrite maxCount_cons.
  destruct (N.max_spec (e_count a) (maxCount ds)) as [[Hlt ->]|[Hle ->]].
  - destruct IH as [H0|(i & en & Hi & Hen)]; [left; exact H0|].
    right. exists (S i), en. split; [exact Hi|exact Hen].
  - right. exists 0%nat, a. split; reflexivity.
Qed.

Lemma bucket_top (max : N) : (0 < max)%N -> bucket max max = 4.
Proof.
  intros Hm. unfold bucket. change (Z.of_nat (List.length colors) - 1) with 4.
  destruct (N.eqb_spec max 0); [lia|].
  destruct max as [|p]; [lia|]. rewrite colorLevel_pos_eq.
  change (Z.of_N (N.pos p)) with (Z.pos p).
  replace (- (4 * Z.pos p)) with ((-4) * Z.pos p) by lia.
  rewrite Z.div_mul by discriminate. reflexivity.
Qed.

Lemma bucket_zero_iff (max cnt : N) :
  bucket max cnt = 0 <-> cnt = 0%N \/ max = 0%N.
Proof.
  unfold bucket. change (Z.of_nat (List.length colors) - 1) with 4.
  destruct (N.eqb_spec cnt 0); [tauto|]. destruct (N.eqb_spec max 0); [tauto|].
  pose proof (colorLevel_ge_1 max cnt). split; [lia|intros [?|?]; contradiction].
Qed.

Lemma colorAt_cases (b : Z) :
  0 <= b <= 4 ->
  colorAt b ∈ colors /\ (colorAt b = "#ebedf0"%string <-> b = 0)
  /\ (b = 4 -> colorAt b = "#216e39"%string).
Proof.
  intros Hb.
  assert (b = 0 \/ b = 1 \/ b = 2 \/ b = 3 \/ b = 4) as Hcases by lia.
  clear Hb. destruct Hcases as [->|[->|[->|[->| ->]]]];
    (split; [vm_compute; set_solver|]);
    (split; [split; [intros H; try reflexivity; discriminate H|intros H; try reflexivity; discriminate H]|]);
    intros H; try reflexivity; discriminate H.
Qed.

(** X18: the colours of the cells.  Every cell is filled with one of the
    five colours; with the first one exactly when its count is 0; and with the
    last one when its count is the maximum and not 0. *)
Theorem cell_colours (e : env) (now : Z) (w : world) (i : nat) (en : entry) :
  grid e now w !! i = Some en ->
  let r := mkRect (CELL_SIZE e) (GAP e) (maxCount (grid e now w)) i en in
  fill r ∈ colors
  /\ (fill r = "#ebedf0"%string <-> e_count en = 0%N)
  /\ (e_count en = maxCount (grid e now w) -> e_count en <> 0%N ->
        fill r = "#216e39"%string).
Proof.
  intros Hi r. subst r. cbn [mkRect fill]. unfold colorFor.
  assert (e_count en <= maxCount (grid e now w))%N as Hle
    by (apply maxCount_upper, list_elem_of_lookup; exists i; exact Hi).
  generalize dependent (maxCount (grid e now w)). intros m Hle.
  destruct (colorAt_cases _ (bucket_range m (e_count en))) as (Hin & Hzero & Htop).
  split; [exact Hin|]. split.
  - rewrite Hzero, bucket_zero_iff. lia.
  - intros Hm Hpos. apply Htop. rewrite Hm. apply bucket_top. lia.
Qed.

Lemma cell_colours_witness :
  grid (Sample.envOf "A,B" 10) Sample.wednesday (Sample.node18 Sample.remoteAB) !! 8%nat
  = Some {| e_date := 1704067200000; iso := "2024-01-01"; e_count := 5 |}
  /\ fill (mkRect (CELL_SIZE (Sample.envOf "A,B" 10)) (GAP (Sample.envOf "A,B" 10))
             (maxCount (grid (Sample.envOf "A,B" 10) Sample.wednesday
                          (Sample.node18 Sample.remoteAB)))
             8 {| e_date := 1704067200000; iso := "2024-01-01"; e_count := 5 |})
     = "#216e39"%string.
Proof.
  assert (grid (Sample.envOf "A,B" 10) Sample.wednesday (Sample.node18 Sample.remoteAB)
            !! 8%nat
          = Some {| e_date := 1704067200000; iso := "2024-01-01"; e_count := 5 |}) as H
    by (vm_compute; reflexivity).
  split; [exact H|].
  destruct (cell_colours _ _ _ _ _ H) as (_ & _ & Htop).
  apply Htop; [vm_compute; reflexivity|discriminate].
Defined.

(** X19: when some cell has a count above 0, some cell is filled with
    the last, darkest colour. *)
Theorem darkest_colour_used (e : env) (now : Z) (w : world) :
  maxCount (grid e now w) <> 0%N ->
  exists i en,
    grid e now w !! i = Some en
    /\ fill (mkRect (CELL_SIZE e) (GAP e) (maxCount (grid e now w)) i en)
       = "#216e39"%string.
Proof.
  intros Hm. destruct (maxCount_attained (grid e now w)) as [H0|(i & en & Hi & Hen)];
    [contradiction|].
  exists i, en. split; [exact Hi|]. cbn [mkRect fill]. unfold colorFor.
  rewrite Hen. generalize dependent (maxCount (grid e now w)). intros m Hm _.
  rewrite bucket_top by lia. reflexivity.
Qed.

Lemma darkest_colour_used_witness :
  maxCount (grid (Sample.envOf "A,B" 10) Sample.wednesday
              (Sample.node18 Sample.remoteAB)) <> 0%N
  /\ exists i en,
       grid (Sample.envOf "A,B" 10) Sample.wednesday (Sample.node18 Sample.remoteAB) !! i
       = Some en
       /\ fill (mkRect (CELL_SIZE (Sample.envOf "A,B" 10)) (GAP (Sample.envOf "A,B" 10))
                  (maxCount (grid (Sample.envOf "A,B" 10) Sample.wednesday
                               (Sample.node18 Sample.remoteAB))) i en)
          = "#216e39"%string.
Proof.
  assert (maxCount (grid (Sample.envOf "A,B" 10) Sample.wednesday
                      (Sample.node18 Sample.remoteAB)) <> 0%N) as H
    by (vm_compute; discriminate).
  split; [exact H|].
  exact (darkest_colour_used _ _ _ H).
Defined.

Lemma svgHeader_size (cell gap weeks : Z) :
  svgHeader cell gap weeks =
    "<?xml version=" +:+ JS.quoted "1.0" +:+ " encoding=" +:+ JS.quoted "UTF-8"
      +:+ "?>" +:+ JS.nl
      +:+ "<svg xmlns=" +:+ JS.quoted "http://www.w3.org/2000/svg"
      +:+ " width=" +:+ JS.quoted (JS.num (svgW cell gap weeks))
      +:+ " height=" +:+ JS.quoted (JS.num (svgH cell gap))
      +:+ " viewBox=" +:+ JS.quoted ("0 0 " +:+ JS.num (svgW cell gap weeks) +:+ " "
                                     +:+ JS.num (svgH cell gap)) +:+ ">" +:+ JS.nl
      +:+ "<rect width=" +:+ JS.quoted "100%" +:+ " height=" +:+ JS.quoted "100%"
      +:+ " fill=" +:+ JS.quoted "transparent" +:+ "/>" +:+ JS.nl.
Proof. reflexivity. Qed.







(** ** More on texts and the configuration *)

Lemma split_cons sep c s :
  JS.split sep (String c s) =
    if Ascii.eqb c sep then EmptyString :: JS.split sep s
    else match JS.split sep s with
         | h :: t => String c h :: t
         | [] => [String c EmptyString]
         end.
Proof. reflexivity. Qed.

Lemma split_join_facts (sep : ascii) (s : string) :
  String.concat (String sep EmptyString) (JS.split sep s) = s
  /\ List.length (JS.split sep s) = S (countChar sep s)
  /\ Forall (fun part => hasChar sep part = false) (JS.split sep s).
Proof.
  induction s as [|c s (IHjoin & IHlen & IHparts)].
  - split; [reflexivity|]. split; [reflexivity|]. repeat constructor.
  - rewrite split_cons. cbn [countChar].
    destruct (Ascii.eqb c sep) eqn:Hc.
    + apply Ascii.eqb_eq in Hc. subst c. split; [|split].
      * destruct (JS.split sep s) as [|h t] eqn:Hs; [discriminate IHlen|].
        change (String.concat (String sep EmptyString) (EmptyString :: h :: t))
          with (String sep (String.concat (String sep EmptyString) (h :: t))).
        rewrite IHjoin. reflexivity.
      * cbn [List.length]. rewrite IHlen. reflexivity.
      * constructor; [reflexivity|exact IHparts].
    + destruct (JS.split sep s) as [|h t] eqn:Hs; [discriminate IHlen|].
      split; [|split].
      * rewrite <- IHjoin. cbn [String.concat]. destruct t; reflexivity.
      * exact IHlen.
      * inversion IHparts as [|? ? Hh Ht]; subst. constructor; [|exact Ht].
        cbn [hasChar]. rewrite Hc, Hh. reflexivity.
Qed.

(** X2: [split] and [join].  Joining the parts of [s.split(sep)] with
    [sep] gives [s] back; there is one part more than [s] has separators; no
    part holds the separator. *)
Theorem split_join (sep : ascii) (s : string) :
  String.concat (String sep EmptyString) (JS.split sep s) = s
  /\ List.length (JS.split sep s) = S (countChar sep s)
  /\ Forall (fun part => hasChar sep part = false) (JS.split sep s).
Proof.
  destruct (split_join_facts sep s) as (Hjoin & Hlen & Hparts).
  split; [exact Hjoin|]. split; [exact Hlen|exact Hparts].
Qed.

Lemma append_cons c (a b : string) : String c a +:+ b = String c (a +:+ b).
Proof. reflexivity. Qed.

Lemma append_nil_l (a : string) : EmptyString +:+ a = a.
Proof. reflexivity. Qed.

Lemma trimStart_strips s :
  exists l, s = l +:+ JS.trimStart s /\ allWhite l = true.
Proof.
  induction s as [|c s (l & Hl & Hw)]; [exists EmptyString; split; reflexivity|].
  cbn [JS.trimStart]. destruct (JS.isWhiteSpace c) eqn:Hc.
  - exists (String c l). split; [rewrite append_cons, <- Hl; reflexivity|].
    cbn [allWhite]. rewrite Hc, Hw. reflexivity.
  - exists EmptyString. split; reflexivity.
Qed.

Lemma trimEnd_strips s :
  exists r, s = JS.trimEnd s +:+ r /\ allWhite r = true.
Proof.
  induction s as [|c s (r & Hr & Hw)]; [exists EmptyString; split; reflexivity|].
  cbn [JS.trimEnd]. destruct (JS.trimEnd s) as [|c' t] eqn:Ht.
  - rewrite append_nil_l in Hr. subst s. destruct (JS.isWhiteSpace c) eqn:Hc.
    + exists (String c r). split; [reflexivity|].
      cbn [allWhite]. rewrite Hc, Hw. reflexivity.
    + exists r. split; [reflexivity|exact Hw].
  - exists r. split; [rewrite append_cons, <- Hr; reflexivity|exact Hw].
Qed.

Lemma append_assoc_s (a b c : string) : (a +:+ b) +:+ c = a +:+ (b +:+ c).
Proof.
  induction a as [|x a IH]; [reflexivity|]. rewrite !append_cons, IH. reflexivity.
Qed.

Lemma hasChar_app c a b : hasChar c (a +:+ b) = hasChar c a || hasChar c b.
Proof.
  induction a as [|x a IH]; [reflexivity|].
  rewrite append_cons. cbn [hasChar]. rewrite IH. apply orb_assoc.
Qed.

Lemma trim_strips (s : string) :
  exists l r, s = l +:+ JS.trim s +:+ r /\ allWhite l = true /\ allWhite r = true.
Proof.
  destruct (trimStart_strips s) as (l & Hl & Hwl).
  destruct (trimEnd_strips (JS.trimStart s)) as (r & Hr & Hwr).
  exists l, r. split; [|split; assumption].
  unfold JS.trim. rewrite <- Hr. exact Hl.
Qed.

(** X3: [trim] strips white space only: the text is its trimmed form
    between two runs of white space. *)
Theorem trim_strips_white_only (s : string) :
  exists l r, s = l +:+ JS.trim s +:+ r /\ allWhite l = true /\ allWhite r = true.
Proof.
  destruct (trim_strips s) as (l & r & H).
  exists l, r. exact H.
Qed.

(** X4: no account name holds a comma, and there are at most as many
    accounts as the configured text has commas, plus one. *)
Theorem usernames_no_comma (e : env) :
  Forall (fun name => hasChar "," name = false) (USERNAMES e)
  /\ (List.length (USERNAMES e)
      <= S (countChar "," (default default_usernames
                             (JS.orElse (USERNAMES_env e) (Some default_usernames)))))%nat.
Proof.
  unfold USERNAMES.
  generalize (default default_usernames
                (JS.orElse (USERNAMES_env e) (Some default_usernames))); intros s.
  destruct (split_join_facts "," s) as (_ & Hlen & Hparts). split.
  - apply Forall_forall. intros name Hin.
    apply list_elem_of_In, filter_In in Hin as [Hin _].
    apply in_map_iff in Hin as (part & <- & Hpart).
    rewrite Forall_forall in Hparts.
    specialize (Hparts part (proj2 (list_elem_of_In _ _) Hpart)).
    destruct (trim_strips part) as (l & r & Hp & _).
    rewrite Hp, !hasChar_app in Hparts.
    apply orb_false_iff in Hparts as [_ Hparts].
    apply orb_false_iff in Hparts as [Hparts _]. exact Hparts.
  - rewrite <- Hlen, <- (length_map JS.trim (JS.split "," s)). apply filter_length_le.
Qed.

Lemma orElse_None a b :
  JS.orElse a b = None <-> unsetOrEmpty a /\ b = None.
Proof.
  unfold JS.orElse, unsetOrEmpty. destruct a as [[|c s]|]; cbn [JS.truthy].
  - split; [intros ->; auto|intros [_ ->]; reflexivity].
  - split; [discriminate|intros [[H|H] _]; discriminate].
  - split; [intros ->; auto|intros [_ ->]; reflexivity].
Qed.

Lemma orElse_Some a b t :
  JS.orElse a b = Some t <->
  (a = Some t /\ t <> EmptyString) \/ (unsetOrEmpty a /\ b = Some t).
Proof.
  unfold JS.orElse, unsetOrEmpty. destruct a as [[|c s]|]; cbn [JS.truthy].
  - split; [intros ->; right; auto|].
    intros [[[= <-] H]|[_ ->]]; [contradiction|reflexivity].
  - split; [intros [= <-]; left; split; [reflexivity|discriminate]|].
    intros [[[= <-] _]|[[H|H] _]]; [reflexivity|discriminate|discriminate].
  - split; [intros ->; right; auto|].
    intros [[H _]|[_ ->]]; [discriminate|reflexivity].
Qed.

(** X1: the token.  [TOKEN] is the first of [GH_PAT], [GH_TOKEN] and
    [GITHUB_TOKEN] that is set and not empty, and there is none exactly when
    all three are unset or empty; the warning is printed exactly then; a
    request carries the header [bearer <token>] exactly when there is a
    token. *)
Theorem token_resolution (e : env) (now : Z) (login : string) :
  (TOKEN e = None <->
     unsetOrEmpty (GH_PAT e) /\ unsetOrEmpty (GH_TOKEN e) /\ unsetOrEmpty (GITHUB_TOKEN e))
  /\ (forall t, TOKEN e = Some t <->
        t <> EmptyString
        /\ (GH_PAT e = Some t
            \/ (unsetOrEmpty (GH_PAT e) /\ GH_TOKEN e = Some t)
            \/ (unsetOrEmpty (GH_PAT e) /\ unsetOrEmpty (GH_TOKEN e)
                /\ GITHUB_TOKEN e = Some t)))
  /\ (warnings e = [WarnNoToken] <-> TOKEN e = None)
  /\ req_authorization (mkRequest e now login)
     = (fun t => "bearer " +:+ t) <$> TOKEN e.
Proof.
  split; [|split; [|split]].
  - unfold TOKEN. rewrite !orElse_None. tauto.
  - intros t. unfold TOKEN. rewrite !orElse_Some.
    pose proof (orElse_Some (GITHUB_TOKEN e) None t) as H3.
    split.
    + intros [[H1 Ht]|[H1 [[H2 Ht]|[H2 [[H3' Ht]|[_ H3']]]]]]; try discriminate;
        (split; [exact Ht|]); auto.
    + intros [Ht [H1|[[H1 H2]|(H1 & H2 & H3')]]]; auto 10.
  - unfold warnings. destruct (TOKEN e); split; (discriminate || reflexivity).
  - unfold mkRequest. cbn [req_authorization]. destruct (TOKEN e); reflexivity.
Qed.

(** ** ISO dates *)

Example isoToDate_sample :
  isoToDate "2024-01-01" = Some 1704067200000
  /\ isoToDate "2024-13-01" = None
  /\ isoToDate "2024" = Some 1704067200000
  /\ isoToDate "yesterday" = None.
Proof. vm_compute. auto. Qed.

Lemma pad4_reads_back_all : forallb (padReadsBack 4) (seqZ 0 10000) = true.
Proof. vm_compute. reflexivity. Qed.

Lemma pad2_reads_back_all : forallb (padReadsBack 2) (seqZ 0 100) = true.
Proof. vm_compute. reflexivity. Qed.

Lemma pad4_reads_back n : 0 <= n <= 9999 -> padReadsBack 4 n = true.
Proof.
  intros Hn. pose proof pad4_reads_back_all as H. rewrite forallb_forall in H.
  apply H, list_elem_of_In, elem_of_seqZ. lia.
Qed.

Lemma pad2_reads_back n : 0 <= n <= 99 -> padReadsBack 2 n = true.
Proof.
  intros Hn. pose proof pad2_reads_back_all as H. rewrite forallb_forall in H.
  apply H, list_elem_of_In, elem_of_seqZ. lia.
Qed.

Lemma takeDigits_app n : forall s acc v rest,
  takeDigits n s acc = Some (v, EmptyString) ->
  takeDigits n (s +:+ rest) acc = Some (v, rest).
Proof.
  induction n as [|n IH]; intros s acc v rest; cbn [takeDigits].
  - intros [= -> ->]. reflexivity.
  - destruct s as [|c s]; [discriminate|]. rewrite append_cons.
    destruct (digitOf c); [apply IH|discriminate].
Qed.

Lemma padReadsBack_spec w n rest :
  padReadsBack w n = true ->
  String.length (JSDate.pad w n) = w
  /\ takeDigits w (JSDate.pad w n +:+ rest) 0 = Some (n, rest).
Proof.
  unfold padReadsBack. intros [Hlen Hd]%andb_prop.
  split; [apply Nat.eqb_eq, Hlen|].
  apply takeDigits_app.
  destruct (takeDigits w (JSDate.pad w n) 0) as [[v [|c r]]|]; try discriminate.
  apply Z.eqb_eq in Hd. subst v. reflexivity.
Qed.

Lemma slice0_app (s rest : string) :
  JS.slice0 (String.length s) (s +:+ rest) = s.
Proof.
  unfold JS.slice0. induction s as [|c s IH].
  - cbn. destruct rest; reflexivity.
  - rewrite append_cons. cbn [String.length substring]. rewrite IH. reflexivity.
Qed.

Lemma length_append_s (a b : string) :
  String.length (a +:+ b) = (String.length a + String.length b)%nat.
Proof.
  induction a as [|c a IH]; [reflexivity|].
  rewrite append_cons. cbn [String.length]. rewrite IH. reflexivity.
Qed.

Lemma digit_not_sign c d :
  digitOf c = Some d -> Ascii.eqb c "+" = false /\ Ascii.eqb c "-" = false.
Proof.
  destruct c as [[] [] [] [] [] [] [] []]; vm_compute; intros H;
    first [discriminate H | split; reflexivity].
Qed.

Lemma append_nil_r_s (a : string) : a +:+ EmptyString = a.
Proof.
  induction a as [|c a IH]; [reflexivity|]. rewrite append_cons, IH. reflexivity.
Qed.

Lemma parseDate_year c s :
  Ascii.eqb c "+" = false -> Ascii.eqb c "-" = false ->
  parseDate (String c s) =
    match takeDigits 4 (String c s) 0 with
    | Some (y, rest) => parseMonthDay y rest
    | None => None
    end.
Proof. intros H1 H2. unfold parseDate. rewrite H1, H2. reflexivity. Qed.

Lemma parseMonthDay_full (m2 d2 : string) (y m d : Z) :
  takeDigits 2 (m2 +:+ "-" +:+ d2) 0 = Some (m, "-" +:+ d2) ->
  takeDigits 2 d2 0 = Some (d, EmptyString) ->
  parseMonthDay y ("-" +:+ m2 +:+ "-" +:+ d2) = Some (y, m, d).
Proof.
  intros H1 H2.
  change ("-" +:+ m2 +:+ "-" +:+ d2) with (String "-" (m2 +:+ "-" +:+ d2)).
  unfold parseMonthDay. rewrite ?Ascii.eqb_refl, H1.
  change ("-" +:+ d2) with (String "-" d2). cbv iota beta.
  rewrite ?Ascii.eqb_refl, H2. reflexivity.
Qed.

Section IsoFacts.
Import JSDate.

Lemma MakeDay_fields t :
  MakeDay (YearFromTime t) (MonthFromTime t) (DateFromTime t) = Day t.
Proof.
  unfold MakeDay, DateFromTime.
  pose proof (MonthFromTime_range t) as Hm.
  rewrite Z.div_small, Z.mod_small, Z.add_0_r by lia.
  fold (InLeapYear t). unfold DayWithinYear. lia.
Qed.

(** The date part of [toISOString], for a year of four digits. *)
Lemma toISOString_date t :
  0 <= YearFromTime t <= 9999 ->
  JS.slice0 10 (toISOString t)
  = pad 4 (YearFromTime t) +:+ "-" +:+ pad 2 (MonthFromTime t + 1) +:+ "-"
      +:+ pad 2 (DateFromTime t).
Proof.
  intros Hy. pose proof (MonthFromTime_range t) as Hm.
  pose proof (DateFromTime_range t) as Hd.
  destruct (padReadsBack_spec 4 _ EmptyString (pad4_reads_back _ Hy)) as [L4 _].
  assert (0 <= MonthFromTime t + 1 <= 99) as Hm' by lia.
  assert (0 <= DateFromTime t <= 99) as Hd' by lia.
  destruct (padReadsBack_spec 2 _ EmptyString (pad2_reads_back _ Hm')) as [L2 _].
  destruct (padReadsBack_spec 2 _ EmptyString (pad2_reads_back _ Hd')) as [L2' _].
  unfold toISOString, isoYear.
  replace ((0 <=? YearFromTime t) && (YearFromTime t <=? 9999)) with true
    by (symmetry; apply andb_true_intro; split; [apply Z.leb_le|apply Z.leb_le]; lia).
  generalize dependent (pad 4 (YearFromTime t)). intros y4 L4.
  generalize dependent (pad 2 (MonthFromTime t + 1)). intros m2 L2.
  generalize dependent (pad 2 (DateFromTime t)). intros d2 L2'.
  generalize (pad 2 (HourFromTime t) +:+ ":" +:+ pad 2 (MinFromTime t) +:+ ":"
              +:+ pad 2 (SecFromTime t) +:+ "." +:+ pad 3 (msFromTime t) +:+ "Z").
  intros rest.
  replace (y4 +:+ "-" +:+ m2 +:+ "-" +:+ d2 +:+ "T" +:+ rest)
    with ((y4 +:+ "-" +:+ m2 +:+ "-" +:+ d2) +:+ ("T" +:+ rest))
    by (rewrite !append_assoc_s; reflexivity).
  replace 10%nat with (String.length (y4 +:+ "-" +:+ m2 +:+ "-" +:+ d2)).
  - apply slice0_app.
  - rewrite !length_append_s, L4, L2, L2'. reflexivity.
Qed.
End IsoFacts.

Lemma isoToDate_back (t : Z) :
  0 <= JSDate.YearFromTime t <= 9999 ->
  isoToDate (JS.slice0 10 (JSDate.toISOString t)) = Some (JSDate.Day t * JSDate.msPerDay).
Proof.
  intros Hy. rewrite (toISOString_date t Hy).
  pose proof (MonthFromTime_range t) as Hm.
  pose proof (DateFromTime_range t) as Hd.
  pose proof (MakeDay_fields t) as Hday.
  unfold isoToDate.
  assert (parseDate (JSDate.pad 4 (JSDate.YearFromTime t) +:+ "-"
                       +:+ JSDate.pad 2 (JSDate.MonthFromTime t + 1) +:+ "-"
                       +:+ JSDate.pad 2 (JSDate.DateFromTime t))
          = Some (JSDate.YearFromTime t, JSDate.MonthFromTime t + 1, JSDate.DateFromTime t))
    as ->.
  { destruct (padReadsBack_spec 4 _
                ("-" +:+ JSDate.pad 2 (JSDate.MonthFromTime t + 1) +:+ "-"
                 +:+ JSDate.pad 2 (JSDate.DateFromTime t))
                (pad4_reads_back _ Hy)) as [L4 T4].
    assert (0 <= JSDate.MonthFromTime t + 1 <= 99) as Hm' by lia.
    assert (0 <= JSDate.DateFromTime t <= 99) as Hd' by lia.
    destruct (padReadsBack_spec 2 _
                ("-" +:+ JSDate.pad 2 (JSDate.DateFromTime t))
                (pad2_reads_back _ Hm')) as [_ T2].
    destruct (padReadsBack_spec 2 _ EmptyString (pad2_reads_back _ Hd')) as [_ T2'].
    clear Hm' Hd' Hm Hd Hday Hy.
    rewrite append_nil_r_s in T2'.
    destruct (JSDate.pad 4 (JSDate.YearFromTime t)) as [|c y4]; [discriminate L4|].
    rewrite append_cons in T4 |- *.
    assert (exists d, digitOf c = Some d) as [d Hc].
    { revert T4. cbn [takeDigits]. destruct (digitOf c); [eauto|discriminate]. }
    destruct (digit_not_sign c d Hc) as [Hplus Hminus].
    rewrite (parseDate_year _ _ Hplus Hminus), T4.
    apply parseMonthDay_full; [exact T2|exact T2']. }
  replace ((1 <=? JSDate.MonthFromTime t + 1) && (JSDate.MonthFromTime t + 1 <=? 12)
           && (1 <=? JSDate.DateFromTime t) && (JSDate.DateFromTime t <=? 31)) with true.
  - replace (JSDate.MonthFromTime t + 1 - 1) with (JSDate.MonthFromTime t) by lia.
    rewrite Hday. unfold JSDate.MakeDate, JSDate.MakeTime. f_equal. lia.
  - symmetry. repeat (apply andb_true_intro; split); apply Z.leb_le; lia.
Qed.

(** X22: an ISO date reads back as its day.  For a time in the years 0
    to 9999, the first 10 characters of [toISOString] are 10 characters that
    [isoToDate] reads as the UTC midnight of that day. *)
Theorem isoToDate_toISOString (t : Z) :
  0 <= JSDate.YearFromTime t <= 9999 ->
  isoToDate (JS.slice0 10 (JSDate.toISOString t)) = Some (JSDate.Day t * JSDate.msPerDay)
  /\ String.length (JS.slice0 10 (JSDate.toISOString t)) = 10%nat.
Proof.
  intros Hy. split; [apply isoToDate_back, Hy|].
  rewrite (toISOString_date t Hy).
  pose proof (MonthFromTime_range t) as Hm. pose proof (DateFromTime_range t) as Hd.
  assert (0 <= JSDate.MonthFromTime t + 1 <= 99) as Hm' by lia.
  assert (0 <= JSDate.DateFromTime t <= 99) as Hd' by lia.
  destruct (padReadsBack_spec 4 _ EmptyString (pad4_reads_back _ Hy)) as [L4 _].
  destruct (padReadsBack_spec 2 _ EmptyString (pad2_reads_back _ Hm')) as [L2 _].
  destruct (padReadsBack_spec 2 _ EmptyString (pad2_reads_back _ Hd')) as [L2' _].
  rewrite !length_append_s, L4, L2, L2'. reflexivity.
Qed.

Lemma isoToDate_toISOString_witness :
  0 <= JSDate.YearFromTime Sample.wednesday <= 9999
  /\ isoToDate (JS.slice0 10 (JSDate.toISOString Sample.wednesday))
     = Some (JSDate.Day Sample.wednesday * JSDate.msPerDay).
Proof.
  assert (0 <= JSDate.YearFromTime Sample.wednesday <= 9999) as H
    by (vm_compute; split; discriminate).
  split; [exact H|]. exact (proj1 (isoToDate_toISOString Sample.wednesday H)).
Defined.

Lemma midnight_day t : JSDate.TimeWithinDay t = 0 -> JSDate.Day t * JSDate.msPerDay = t.
Proof.
  unfold JSDate.TimeWithinDay, JSDate.Day. intros H.
  pose proof (Z.div_mod t JSDate.msPerDay). unfold JSDate.msPerDay in *. lia.
Qed.

Lemma grid_entry_midnight (e : env) (now : Z) agg (i : Z) :
  JSDate.TimeWithinDay (e_date (mkEntry (fromDate e now) agg i)) = 0.
Proof.
  rewrite entry_date, oneDay_eq, TimeWithinDay_shift. apply start_midnight.
Qed.

(** X23: the key of a cell reads back as its date, and no two cells of
    the years 0 to 9999 share a key. *)
Theorem cell_keys_distinct (e : env) (now : Z) (w : world) (i j : nat) (a b : entry) :
  grid e now w !! i = Some a ->
  grid e now w !! j = Some b ->
  0 <= JSDate.YearFromTime (e_date a) <= 9999 ->
  0 <= JSDate.YearFromTime (e_date b) <= 9999 ->
  isoToDate (iso a) = Some (e_date a)
  /\ (iso a = iso b -> i = j).
Proof.
  unfold grid. generalize (aggregated (fetched e now w)); intros agg Ha Hb.
  rewrite (lookup_dates _ _ _ _ _ Ha), (lookup_dates _ _ _ _ _ Hb). clear Ha Hb.
  pose proof (grid_entry_midnight e now agg (Z.of_nat i)) as Hma.
  pose proof (grid_entry_midnight e now agg (Z.of_nat j)) as Hmb.
  revert Hma Hmb. rewrite !entry_iso, !entry_date.
  generalize (start (fromDate e now)); intros s Hma Hmb Hya Hyb.
  rewrite (isoToDate_back _ Hya), (midnight_day _ Hma).
  split; [reflexivity|]. intros Hiso.
  assert (Some (s + Z.of_nat i * oneDay) = Some (s + Z.of_nat j * oneDay)) as Heq.
  { rewrite <- (midnight_day _ Hma), <- (midnight_day _ Hmb).
    rewrite <- (isoToDate_back _ Hya), <- (isoToDate_back _ Hyb), Hiso. reflexivity. }
  assert (s + Z.of_nat i * oneDay = s + Z.of_nat j * oneDay) as Heq'
    by congruence.
  unfold oneDay in Heq'. lia.
Qed.

Lemma cell_keys_distinct_witness :
  grid (Sample.envOf "A,B" 10) Sample.wednesday (Sample.node18 Sample.remoteAB) !! 8%nat
  = Some {| e_date := 1704067200000; iso := "2024-01-01"; e_count := 5 |}
  /\ 0 <= JSDate.YearFromTime 1704067200000 <= 9999
  /\ isoToDate "2024-01-01" = Some 1704067200000.
Proof.
  assert (grid (Sample.envOf "A,B" 10) Sample.wednesday (Sample.node18 Sample.remoteAB)
            !! 8%nat
          = Some {| e_date := 1704067200000; iso := "2024-01-01"; e_count := 5 |}) as H
    by (vm_compute; reflexivity).
  assert (0 <= JSDate.YearFromTime 1704067200000 <= 9999) as Hy
    by (vm_compute; split; discriminate).
  split; [exact H|]. split; [exact Hy|].
  exact (proj1 (cell_keys_distinct _ _ _ 8 8 _ _ H H Hy Hy)).
Defined.
(** ** The colour of a cell, in doubles *)

Lemma ceil_between (v : Q) (k : Z) :
  (inject_Z (k - 1) < v)%Q -> (v <= inject_Z k)%Q -> Qceiling v = k.
Proof.
  intros Hlo Hhi.
  assert (Qceiling v <= k) as H1.
  { rewrite <- (Qceiling_Z k). apply Qceiling_resp_le, Hhi. }
  assert (k - 1 < Qceiling v) as H2.
  { rewrite Zlt_Qlt. eapply Qlt_le_trans; [exact Hlo|apply Qle_ceiling]. }
  lia.
Qed.

Section Rounded.
Variable rnd : Q -> Q.
Hypothesis Hrnd : roundsToBinary64 rnd.

Lemma rnd_between (lo hi x : Q) :
  isBinary64 lo -> isBinary64 hi -> (lo <= x)%Q -> (x <= hi)%Q ->
  (lo <= rnd x)%Q /\ (rnd x <= hi)%Q.
Proof.
  destruct Hrnd as [Hmono Hfix]. intros Hlo Hhi H1 H2. split.
  - rewrite <- (Hfix lo Hlo). apply Hmono, H1.
  - rewrite <- (Hfix hi Hhi). apply Hmono, H2.
Qed.

(** Between two numbers of the format that, multiplied by 4, are numbers of
    the format above [k - 1] and at most [k], the level is [k]. *)
Lemma level_between (lo hi q : Q) (k : Z) :
  isBinary64 lo -> isBinary64 hi ->
  isBinary64 (lo * inject_Z 4) -> isBinary64 (hi * inject_Z 4) ->
  (lo <= q)%Q -> (q <= hi)%Q ->
  (inject_Z (k - 1) < lo * inject_Z 4)%Q -> (hi * inject_Z 4 <= inject_Z k)%Q ->
  Qceiling (rnd (rnd q * inject_Z 4)%Q) = k.
Proof.
  intros Blo Bhi Blo4 Bhi4 Hlo Hhi Hk1 Hk.
  destruct (rnd_between lo hi q Blo Bhi Hlo Hhi) as [Hr1 Hr2].
  assert (lo * inject_Z 4 <= rnd q * inject_Z 4)%Q as Hp1
    by (apply Qmult_le_compat_r; [exact Hr1|discriminate]).
  assert (rnd q * inject_Z 4 <= hi * inject_Z 4)%Q as Hp2
    by (apply Qmult_le_compat_r; [exact Hr2|discriminate]).
  destruct (rnd_between _ _ _ Blo4 Bhi4 Hp1 Hp2) as [Hs1 Hs2].
  apply ceil_between.
  - eapply Qlt_le_trans; [exact Hk1|exact Hs1].
  - eapply Qle_trans; [exact Hs2|exact Hk].
Qed.

Ltac binary64 m e :=
  exists m, e; split; [reflexivity|]; split; [lia|vm_compute; reflexivity].

Ltac q_order :=
  unfold Qle, Qlt, Qdiv, Qmult, Qinv, inject_Z; cbn [Qnum Qden];
  rewrite ?Pos.mul_1_l, ?Pos.mul_1_r; lia.

(** Below 2^51 the level in doubles is the level in the rationals. *)
Lemma colorLevel_rounded_eq (max cnt : N) :
  (0 < cnt)%N -> (cnt <= max)%N -> (max < maxTotal)%N ->
  colorLevel_rounded rnd max cnt = colorLevel max cnt.
Proof.
  intros Hc Hle Hm. destruct max as [|p]; [lia|]. destruct cnt as [|c]; [lia|].
  rewrite colorLevel_pos_eq. unfold colorLevel_rounded, JS.ceil.
  change (Z.of_nat (List.length colors) - 1) with 4.
  change (Z.of_N (N.pos c)) with (Z.pos c). change (Z.of_N (N.pos p)) with (Z.pos p).
  assert (Z.pos c <= Z.pos p) as Hle' by lia.
  assert (Z.pos p < 2251799813685248) as Hm' by (unfold maxTotal in Hm; lia).
  clear Hc Hle Hm.
  set (k := - (- (4 * Z.pos c) / Z.pos p)).
  assert ((k - 1) * Z.pos p < 4 * Z.pos c <= k * Z.pos p) as Hk
    by (subst k; Z.div_mod_to_equations; nia).
  assert (k = 1 \/ k = 2 \/ k = 3 \/ k = 4) as Hcases by nia.
  clearbody k. destruct Hcases as [->|[->|[->| ->]]].
  - apply (level_between (1 # 2251799813685248) (1 # 4)).
    + binary64 1 (-51).
    + binary64 1 (-2).
    + binary64 1 (-49).
    + binary64 1 0.
    + q_order.
    + q_order.
    + reflexivity.
    + discriminate.
  - apply (level_between (2251799813685249 # 9007199254740992) (1 # 2)).
    + binary64 2251799813685249 (-53).
    + binary64 1 (-1).
    + binary64 2251799813685249 (-51).
    + binary64 2 0.
    + q_order.
    + q_order.
    + reflexivity.
    + discriminate.
  - apply (level_between (4503599627370497 # 9007199254740992) (3 # 4)).
    + binary64 4503599627370497 (-53).
    + binary64 3 (-2).
    + binary64 4503599627370497 (-51).
    + binary64 3 0.
    + q_order.
    + q_order.
    + reflexivity.
    + discriminate.
  - apply (level_between (6755399441055745 # 9007199254740992) 1).
    + binary64 6755399441055745 (-53).
    + binary64 1 0.
    + binary64 6755399441055745 (-51).
    + binary64 4 0.
    + q_order.
    + q_order.
    + reflexivity.
    + discriminate.
Qed.

Lemma bucket_rounded_eq (max cnt : N) :
  (cnt <= max)%N -> (max < maxTotal)%N ->
  bucket_rounded rnd max cnt = bucket max cnt.
Proof.
  intros Hle Hm. unfold bucket_rounded, bucket.
  destruct (N.eqb_spec cnt 0); [reflexivity|].
  destruct (N.eqb_spec max 0); [reflexivity|].
  rewrite colorLevel_rounded_eq by lia. reflexivity.
Qed.
End Rounded.

(** The identity is exact on every number and monotone. *)
Lemma roundsToBinary64_exact : roundsToBinary64 (fun x => x).
Proof. split; [intros x y H; exact H|intros x _; reflexivity]. Qed.

(** Within the limits the largest count of the grid is below 2^51. *)
Lemma grid_max_small (e : env) (now : Z) (w : world) :
  withinLimits e now w = true -> (maxCount (grid e now w) < maxTotal)%N.
Proof.
  intros Hl.
  destruct (withinLimits_cases e now w Hl) as (_ & _ & Hfit%countsFit_bound & _).
  destruct (maxCount_attained (grid e now w)) as [->|(i & en & Hi & <-)];
    [reflexivity|].
  assert (en ∈ grid e now w) as Hen by (apply list_elem_of_lookup; exists i; exact Hi).
  pose proof (cell_count_le e now w en Hen). lia.
Qed.

(** C2: the colour bucket.  In a run within the limits of the engine the
    maximum that the cells are bucketed against is the largest count of the
    grid, 0 for a grid without counts.  For every cell the index that
    [colorFor] reads, computed in the rationals or in doubles, is the bucket of
    the specification: 0 for a zero count or a zero maximum, and otherwise
    [ceil(count / max * 4)] clamped to [1 .. 4]; it is one of the 5 levels, and
    the cell is filled with its colour.  With a maximum of 0 every cell gets
    the colour of bucket 0, without a division. *)
Theorem color_bucket_formula (e : env) (now : Z) (w : world) :
  withinLimits e now w = true ->
  let g := grid e now w in
  let m := maxCount g in
  (forall en, en ∈ g -> (e_count en <= m)%N)
  /\ (m = 0%N \/ exists i en, g !! i = Some en /\ e_count en = m)
  /\ (m < maxTotal)%N
  /\ (forall (i : nat) en, g !! i = Some en ->
        bucket m (e_count en) = bucket_spec m (e_count en)
        /\ (forall rnd, roundsToBinary64 rnd ->
              bucket_rounded rnd m (e_count en) = bucket_spec m (e_count en))
        /\ 0 <= bucket_spec m (e_count en) <= levels - 1
        /\ (bucket_spec m (e_count en) = 0 <-> e_count en = 0%N \/ m = 0%N)
        /\ fill <$> rects (CELL_SIZE e) (GAP e) m g !! i
           = Some (colorAt (bucket_spec m (e_count en))))
  /\ (m = 0%N ->
        Forall (fun r => fill r = "#ebedf0"%string) (rects (CELL_SIZE e) (GAP e) m g)).
Proof.
  intros Hl g m. subst g m.
  pose proof (grid_max_small e now w Hl) as Hsmall.
  pose proof (maxCount_attained (grid e now w)) as Hatt.
  revert Hsmall Hatt. generalize (grid e now w). intros g Hsmall Hatt.
  split; [intros en Hen; apply maxCount_upper, Hen|].
  split; [exact Hatt|].
  split; [exact Hsmall|].
  split.
  - intros i en Hi.
    assert (e_count en <= maxCount g)%N as Hle
      by (apply maxCount_upper, list_elem_of_lookup; exists i; exact Hi).
    split; [apply bucket_refines_spec|].
    split.
    { intros rnd Hrnd. rewrite <- bucket_refines_spec.
      apply (bucket_rounded_eq rnd Hrnd); [exact Hle|exact Hsmall]. }
    split; [rewrite <- bucket_refines_spec; apply bucket_range|].
    split; [rewrite <- bucket_refines_spec; apply bucket_zero_iff|].
    unfold rects. rewrite list_lookup_imap, Hi.
    cbn [fmap option_fmap option_map mkRect fill]. unfold colorFor.
    rewrite bucket_refines_spec. reflexivity.
  - intros Hm. rewrite Hm. unfold rects. apply Forall_forall. intros r Hr.
    apply list_elem_of_lookup in Hr as [i Hi]. revert Hi.
    rewrite list_lookup_imap.
    destruct (g !! i) as [en|]; [|discriminate].
    intros [= <-]. cbn [mkRect fill]. unfold colorFor.
    replace (bucket 0 (e_count en)) with 0; [reflexivity|].
    symmetry. apply bucket_zero_iff. right. reflexivity.
Qed.

Lemma color_bucket_formula_witness :
  withinLimits (Sample.envOf "A,B" 10) Sample.wednesday (Sample.node18 Sample.remoteAB)
  = true
  /\ grid (Sample.envOf "A,B" 10) Sample.wednesday (Sample.node18 Sample.remoteAB)
       !! 9%nat
     = Some {| e_date := 1704153600000; iso := "2024-01-02"; e_count := 1 |}
  /\ roundsToBinary64 (fun x => x)
  /\ bucket_rounded (fun x => x)
       (maxCount (grid (Sample.envOf "A,B" 10) Sample.wednesday
                    (Sample.node18 Sample.remoteAB))) 1
     = 1
  /\ fill <$> rects (CELL_SIZE (Sample.envOf "A,B" 10)) (GAP (Sample.envOf "A,B" 10))
                (maxCount (grid (Sample.envOf "A,B" 10) Sample.wednesday
                             (Sample.node18 Sample.remoteAB)))
                (grid (Sample.envOf "A,B" 10) Sample.wednesday
                   (Sample.node18 Sample.remoteAB)) !! 9%nat
     = Some "#9be9a8"%string.
Proof.
  assert (withinLimits (Sample.envOf "A,B" 10) Sample.wednesday
            (Sample.node18 Sample.remoteAB) = true) as Hl by (vm_compute; reflexivity).
  assert (grid (Sample.envOf "A,B" 10) Sample.wednesday (Sample.node18 Sample.remoteAB)
            !! 9%nat
          = Some {| e_date := 1704153600000; iso := "2024-01-02"; e_count := 1 |}) as Hi
    by (vm_compute; reflexivity).
  split; [exact Hl|]. split; [exact Hi|]. split; [exact roundsToBinary64_exact|].
  destruct (color_bucket_formula (Sample.envOf "A,B" 10) Sample.wednesday
              (Sample.node18 Sample.remoteAB) Hl) as (_ & _ & _ & Hcell & _).
  destruct (Hcell 9%nat _ Hi) as (_ & Hrnd & _ & _ & Hfill).
  split.
  - etransitivity; [exact (Hrnd _ roundsToBinary64_exact)|vm_compute; reflexivity].
  - etransitivity; [exact Hfill|vm_compute; reflexivity].
Defined.
